(** * wacli RPC server: a shallow embedding of [internal/rpc/server.go]

    The HTTP RPC server of wacli serves six routes over a message store
    while a sync task keeps writing to the same store.  This development
    embeds the server's lifecycle ([New], [SetWA], [SetSyncRunning],
    [Start], [Stop]) and its handlers as functions over an explicit
    server state and a chronological log of collaborator calls, and proves
    properties of the request-validation order, of the best-effort
    persistence after a send, and of the lifecycle. *)

From Stdlib Require Import ZArith String Ascii List Bool Lia.
From stdpp Require Import base option list strings gmap fin_maps.

Local Open Scope string_scope.
Local Open Scope Z_scope.

(** ** Go values *)

(** A Go [error] is represented by its message; [None] is the nil error. *)
Definition error := string.

(** [time.Time] as an instant, in nanoseconds since the Unix epoch. *)
Definition Time := Z.

(** Bounds of Go's 64-bit [int]. *)
Definition maxInt : Z := 9223372036854775807.
Definition minInt : Z := -9223372036854775808.

Module Strings.

Definition byte (a : ascii) : N := N_of_ascii a.

(** The [asciiSpace] table of package [strings]: tab, newline, vertical
    tab, form feed, carriage return and space. *)
Definition asciiSpace (a : ascii) : bool :=
  let c := byte a in
  ((9 <=? c) && (c <=? 13) || (c =? 32))%N.

(** UTF-8 encodings of the non-ASCII runes for which [unicode.IsSpace]
    holds: U+0085 and U+00A0 (two bytes), U+1680, U+2000..U+200A,
    U+2028, U+2029, U+202F, U+205F and U+3000 (three bytes). *)
Definition space2 (a b : ascii) : bool :=
  ((byte a =? 194) && ((byte b =? 133) || (byte b =? 160)))%N.

Definition space3 (a b c : ascii) : bool :=
  ((byte a =? 225) && (byte b =? 154) && (byte c =? 128)
   || (byte a =? 226) && (byte b =? 128)
      && ((128 <=? byte c) && (byte c <=? 138)
          || (byte c =? 168) || (byte c =? 169) || (byte c =? 175))
   || (byte a =? 226) && (byte b =? 129) && (byte c =? 159)
   || (byte a =? 227) && (byte b =? 128) && (byte c =? 128))%N.

(** Drops leading white-space runes.  With [rev = true] the bytes are
    read back to front, as [TrimRightFunc] does from the end of the
    string. *)
Fixpoint dropSpace (rev : bool) (s : list ascii) : list ascii :=
  match s with
  | [] => []
  | a :: r1 =>
      if asciiSpace a then dropSpace rev r1
      else
        match r1 with
        | [] => s
        | b :: r2 =>
            if (if rev then space2 b a else space2 a b) then dropSpace rev r2
            else
              match r2 with
              | [] => s
              | c :: r3 =>
                  if (if rev then space3 c b a else space3 a b c)
                  then dropSpace rev r3
                  else s
              end
        end
  end.

(** [strings.TrimSpace]. *)
Definition TrimSpace (s : string) : string :=
  let l := dropSpace false (list_ascii_of_string s) in
  string_of_list_ascii (List.rev (dropSpace true (List.rev l))).

Definition isDigit (a : ascii) : bool :=
  ((48 <=? byte a) && (byte a <=? 57))%N.

Fixpoint digits (s : string) (acc : Z) : option Z :=
  match s with
  | EmptyString => Some acc
  | String a r =>
      if isDigit a then digits r (acc * 10 + (Z.of_N (byte a) - 48))
      else None
  end.

(** [strconv.Atoi]: an optional sign followed by one or more decimal
    digits, in the range of [int].  [None] stands for a non-nil error
    (syntax or range), the only thing the handlers test. *)
Definition Atoi (s : string) : option Z :=
  match s with
  | EmptyString => None
  | String a r =>
      let neg := (byte a =? 45)%N in
      let body := if (neg || (byte a =? 43)%N) then r else s in
      match body with
      | EmptyString => None
      | _ =>
          match digits body 0 with
          | None => None
          | Some n =>
              let v := if neg then - n else n in
              if (minInt <=? v) && (v <=? maxInt) then Some v else None
          end
      end
  end.

End Strings.

(** ** HTTP requests *)

Definition MethodGet : string := "GET".
Definition MethodPost : string := "POST".

Definition StatusOK : Z := 200.
Definition StatusBadRequest : Z := 400.
Definition StatusMethodNotAllowed : Z := 405.
Definition StatusInternalServerError : Z := 500.
Definition StatusServiceUnavailable : Z := 503.

(** An [http.Request] as the handlers read it: the method, the path the
    mux routes on, the parsed query string in the order of the URL, and
    the body. *)
Record Request := {
  Method : string;
  Path : string;
  Query : list (string * string);
  Body : string;
}.

(** [url.Values.Get]: the first value given for the key, the empty
    string when there is none. *)
Fixpoint Get (q : list (string * string)) (key : string) : string :=
  match q with
  | [] => ""
  | (k, v) :: rest => if String.eqb k key then v else Get rest key
  end.

(** ** The store's and the client's data *)

(** Package [types] of whatsmeow: the [JID] struct. *)
Module types.

Record JID := {
  User : string;
  RawAgent : N;
  Device : N;
  Integrator : N;
  Server : string;
}.

End types.

Abbreviation JID := types.JID.

(** [store.Chat]. *)
Record Chat := {
  c_JID : string;
  c_Kind : string;
  c_Name : string;
  c_LastMessageTS : Time;
}.

(** [store.Message]. *)
Record Message := {
  m_ChatJID : string;
  m_ChatName : string;
  m_MsgID : string;
  m_SenderJID : string;
  m_Timestamp : Time;
  m_FromMe : bool;
  m_Text : string;
  m_DisplayText : string;
  m_MediaType : string;
}.

(** [store.ListMessagesParams]; a nil [*time.Time] is [None]. *)
Record ListMessagesParams := {
  lm_ChatJID : string;
  lm_Limit : Z;
  lm_Before : option Time;
  lm_After : option Time;
}.

(** [store.SearchMessagesParams]. *)
Record SearchMessagesParams := {
  sm_Query : string;
  sm_ChatJID : string;
  sm_Limit : Z;
}.

(** [store.UpsertMessageParams], the fields the send handler fills. *)
Record UpsertMessageParams := {
  um_ChatJID : string;
  um_ChatName : string;
  um_MsgID : string;
  um_SenderJID : string;
  um_SenderName : string;
  um_Timestamp : Time;
  um_FromMe : bool;
  um_Text : string;
}.

(** The methods of [*store.DB] the server calls, over the type [DB] of
    store contents.  A Go result [(v, err)] is the pair of both values. *)
Class Store (DB : Type) := {
  UpsertChat : DB -> string -> string -> string -> Time -> DB * option error;
  UpsertMessage : DB -> UpsertMessageParams -> DB * option error;
  ListChats : DB -> string -> Z -> list Chat * option error;
  ListMessages : DB -> ListMessagesParams -> list Message * option error;
  SearchMessages : DB -> SearchMessagesParams -> list Message * option error;
  CountMessages : DB -> Z * option error;
  HasFTS : DB -> bool;
}.

(** The [WAClient] interface.  The context argument of [SendText] and
    [ResolveChatName] only carries the deadline and is left out; what
    [IsConnected] reports is the client's answer at the time of the call. *)
Record WAClient := {
  IsConnected : bool;
  SendText : JID -> string -> string * option error;
  ResolveChatName : JID -> string -> string;
}.

(** ** JSON bodies *)

Record jsonResponse := {
  jr_OK : bool;
  jr_Error : string;
}.

Record statusResponse := {
  st_OK : bool;
  st_SyncRunning : bool;
  st_WAConnected : bool;
  st_ChatsCount : Z;
  st_MessagesCount : Z;
  st_Uptime : string;
  st_FTSEnabled : bool;
}.

Record chatJSON := {
  cj_JID : string;
  cj_Kind : string;
  cj_Name : string;
  cj_LastMessageTS : string;
}.

Record messageJSON := {
  mj_ChatJID : string;
  mj_ChatName : string;
  mj_MsgID : string;
  mj_SenderJID : string;
  mj_Timestamp : string;
  mj_FromMe : bool;
  mj_Text : string;
  mj_DisplayText : string;
  mj_MediaType : string;
}.

Record searchRequest := {
  sr_Query : string;
  sr_ChatJID : string;
  sr_Limit : Z;
}.

Record sendRequest := {
  sq_To : string;
  sq_Message : string;
  sq_ChatJID : string;
}.

Record sendResponse := {
  sp_OK : bool;
  sp_MessageID : string;
  sp_Error : string;
}.

(** What a handler hands to [writeJSON]. *)
Inductive Payload :=
| PError (j : jsonResponse)
| PMap (m : gmap string bool)
| PStatus (r : statusResponse)
| PChats (ok : bool) (chats : list chatJSON)
| PMessages (ok : bool) (messages : list messageJSON)
| PSearch (ok : bool) (results : list messageJSON)
| PSend (r : sendResponse).

(** What the [http.ResponseWriter] has received when the handler returns. *)
Record Response := {
  Code : Z;
  ContentType : string;
  Data : Payload;
}.

(** The [ok] member of the encoded body. *)
Definition okField (p : Payload) : option bool :=
  match p with
  | PError j => Some (jr_OK j)
  | PMap m => m !! "ok"
  | PStatus r => Some (st_OK r)
  | PChats ok _ => Some ok
  | PMessages ok _ => Some ok
  | PSearch ok _ => Some ok
  | PSend r => Some (sp_OK r)
  end.

(** Library functions the handlers call: [encoding/json] decoding of the
    two request bodies, [time] parsing and formatting, and the identifier
    functions of whatsmeow and of [internal/wa]. *)
Class Lib := {
  decodeSearch : string -> searchRequest * option error;
  decodeSend : string -> sendRequest * option error;
  parseRFC3339 : string -> Time * option error;
  formatRFC3339 : Time -> string;
  durationString : Z -> string;
  ParseUserOrJID : string -> JID * option error;
  GroupServer : string;
  IsBroadcastList : JID -> bool;
  JIDString : JID -> string;
}.

(** ** The server *)

(** The routes [Start] registers. *)
Inductive Route :=
| RouteStatus | RouteChats | RouteMessages | RouteSearch | RouteSend | RoutePing.

(** The [http.Server] that [Start] builds: address, mux, the four
    timeouts in seconds, whether [Serve] has been started on a listener
    and whether [Shutdown] has been called. *)
Record httpServer := {
  hs_Addr : string;
  hs_Handler : list (string * Route);
  hs_ReadTimeout : Z;
  hs_ReadHeaderTimeout : Z;
  hs_WriteTimeout : Z;
  hs_IdleTimeout : Z;
  hs_served : bool;
  hs_inShutdown : bool;
}.

(** The context given to [Stop], as [Shutdown] observes it: [ctx_Err] is
    [None] when the connections become idle before the context is done,
    and the context's error otherwise. *)
Record Context := {
  ctx_Err : option error;
}.

(** What the server does to its collaborators, in order. *)
Inductive Event :=
| EvLog (level msg : string)
| EvListen (address : string)
| EvServe
| EvShutdown
| EvIsConnected
| EvSendText (to : JID) (text : string)
| EvResolveChatName (chat : JID) (pushName : string)
| EvUpsertChat (jid kind name : string) (ts : Time)
| EvUpsertMessage (p : UpsertMessageParams)
| EvListChats (query : string) (limit : Z)
| EvListMessages (p : ListMessagesParams)
| EvSearchMessages (p : SearchMessagesParams)
| EvCountMessages
| EvHasFTS.

(** [Options]; a nil [DB] is [None]. *)
Record Options (DB : Type) := {
  o_Addr : string;
  o_DB : option DB;
  o_WA : option WAClient;
}.
Arguments o_Addr {DB} _.
Arguments o_DB {DB} _.
Arguments o_WA {DB} _.

(** [Server].  [db] is the content of the store behind the pointer; the
    mutex and the logger are left to the order of the calls and to the
    [EvLog] events. *)
Record Server (DB : Type) := {
  addr : string;
  db : DB;
  wa : option WAClient;
  server : option httpServer;
  syncRunning : bool;
  startTime : Time;
}.
Arguments addr {DB} _.
Arguments db {DB} _.
Arguments wa {DB} _.
Arguments server {DB} _.
Arguments syncRunning {DB} _.
Arguments startTime {DB} _.

Section Rpc.

Context {DB : Type} `{!Store DB} `{!Lib}.

(** ** Sequencing

    A method of the server is a function from the server's state to its
    result, the new state and the events it caused, oldest first. *)
Definition M (A : Type) : Type := Server DB -> A * Server DB * list Event.

Definition ret {A : Type} (a : A) : M A := fun s => (a, s, []).

Definition bind {A B : Type} (m : M A) (f : A -> M B) : M B :=
  fun s =>
    let '(a, s1, t1) := m s in
    let '(b, s2, t2) := f a s1 in
    (b, s2, (t1 ++ t2)%list).

Notation "x <- m ;; k" := (bind m (fun x => k))
  (at level 100, m at next level, right associativity).
Notation "m ;;; k" := (bind m (fun _ => k))
  (at level 100, right associativity).

Definition gets {A : Type} (f : Server DB -> A) : M A := fun s => (f s, s, []).

Definition modify (f : Server DB -> Server DB) : M unit := fun s => (tt, f s, []).

Definition emit (e : Event) : M unit := fun s => (tt, s, [e]).

Definition set_db (d : DB) (s : Server DB) : Server DB :=
  {| addr := addr s; db := d; wa := wa s; server := server s;
     syncRunning := syncRunning s; startTime := startTime s |}.

Definition set_wa (c : option WAClient) (s : Server DB) : Server DB :=
  {| addr := addr s; db := db s; wa := c; server := server s;
     syncRunning := syncRunning s; startTime := startTime s |}.

Definition set_server (h : option httpServer) (s : Server DB) : Server DB :=
  {| addr := addr s; db := db s; wa := wa s; server := h;
     syncRunning := syncRunning s; startTime := startTime s |}.

Definition set_syncRunning (b : bool) (s : Server DB) : Server DB :=
  {| addr := addr s; db := db s; wa := wa s; server := server s;
     syncRunning := b; startTime := startTime s |}.

(** Calls to the collaborators, each leaving its event. *)
Definition logMsg (level msg : string) : M unit := emit (EvLog level msg).

Definition isConnected (c : WAClient) : M bool :=
  emit EvIsConnected ;;; ret (IsConnected c).

Definition sendText (c : WAClient) (to : JID) (text : string)
  : M (string * option error) :=
  emit (EvSendText to text) ;;; ret (SendText c to text).

Definition resolveChatName (c : WAClient) (chat : JID) (pushName : string)
  : M string :=
  emit (EvResolveChatName chat pushName) ;;; ret (ResolveChatName c chat pushName).

Definition upsertChat (jid kind name : string) (ts : Time) : M (option error) :=
  d <- gets db ;;
  let r := UpsertChat d jid kind name ts in
  emit (EvUpsertChat jid kind name ts) ;;; modify (set_db r.1) ;;; ret r.2.

Definition upsertMessage (p : UpsertMessageParams) : M (option error) :=
  d <- gets db ;;
  let r := UpsertMessage d p in
  emit (EvUpsertMessage p) ;;; modify (set_db r.1) ;;; ret r.2.

Definition listChats (query : string) (limit : Z) : M (list Chat * option error) :=
  d <- gets db ;; emit (EvListChats query limit) ;;; ret (ListChats d query limit).

Definition listMessages (p : ListMessagesParams) : M (list Message * option error) :=
  d <- gets db ;; emit (EvListMessages p) ;;; ret (ListMessages d p).

Definition searchMessages (p : SearchMessagesParams)
  : M (list Message * option error) :=
  d <- gets db ;; emit (EvSearchMessages p) ;;; ret (SearchMessages d p).

Definition countMessages : M (Z * option error) :=
  d <- gets db ;; emit EvCountMessages ;;; ret (CountMessages d).

Definition hasFTS : M bool :=
  d <- gets db ;; emit EvHasFTS ;;; ret (HasFTS d).

(** ** Lifecycle *)

(** [New]; [now] is what [time.Now] returns. *)
Definition New (opts : Options DB) (now : Time) : Server DB + error :=
  let a := if String.eqb (o_Addr opts) "" then "localhost:5555" else o_Addr opts in
  match o_DB opts with
  | None => inr "db is required"
  | Some d =>
      inl {| addr := a; db := d; wa := o_WA opts; server := None;
             syncRunning := false; startTime := now |}
  end.

Definition SetWA (c : option WAClient) : M unit := modify (set_wa c).

Definition SetSyncRunning (running : bool) : M unit :=
  modify (set_syncRunning running).

(** The patterns [Start] registers on its mux. *)
Definition routes : list (string * Route) :=
  [("/status", RouteStatus); ("/chats", RouteChats);
   ("/messages", RouteMessages); ("/search", RouteSearch);
   ("/send", RouteSend); ("/ping", RoutePing)].

Definition set_served (h : httpServer) : httpServer :=
  {| hs_Addr := hs_Addr h; hs_Handler := hs_Handler h;
     hs_ReadTimeout := hs_ReadTimeout h;
     hs_ReadHeaderTimeout := hs_ReadHeaderTimeout h;
     hs_WriteTimeout := hs_WriteTimeout h; hs_IdleTimeout := hs_IdleTimeout h;
     hs_served := true; hs_inShutdown := hs_inShutdown h |}.

(** [Start]; [listen] is the error of [net.Listen] on the address. *)
Definition Start (listen : option error) : M (option error) :=
  let mux := routes in
  a <- gets addr ;;
  let h := {| hs_Addr := a; hs_Handler := mux;
              hs_ReadTimeout := 30; hs_ReadHeaderTimeout := 10;
              hs_WriteTimeout := 60; hs_IdleTimeout := 120;
              hs_served := false; hs_inShutdown := false |} in
  modify (set_server (Some h)) ;;;
  emit (EvListen a) ;;;
  match listen with
  | Some err => ret (Some ("listen " ++ a ++ ": " ++ err))
  | None =>
      logMsg "info" "RPC server starting" ;;;
      emit EvServe ;;;
      modify (set_server (Some (set_served h))) ;;;
      ret None
  end.

(** [http.Server.Shutdown]: marks the server, closes its listeners and
    waits for the connections; a server on which [Serve] never ran has
    none and returns nil at once. *)
Definition Shutdown (h : httpServer) (ctx : Context) : httpServer * option error :=
  ({| hs_Addr := hs_Addr h; hs_Handler := hs_Handler h;
      hs_ReadTimeout := hs_ReadTimeout h;
      hs_ReadHeaderTimeout := hs_ReadHeaderTimeout h;
      hs_WriteTimeout := hs_WriteTimeout h; hs_IdleTimeout := hs_IdleTimeout h;
      hs_served := hs_served h; hs_inShutdown := true |},
   if hs_served h then ctx_Err ctx else None).

Definition Stop (ctx : Context) : M (option error) :=
  srv <- gets server ;;
  match srv with
  | None => ret None
  | Some h =>
      logMsg "info" "RPC server stopping" ;;;
      emit EvShutdown ;;;
      let r := Shutdown h ctx in
      modify (set_server (Some r.1)) ;;;
      ret r.2
  end.

Definition Addr : M string := gets addr.

(** ** Response helpers *)

Definition writeJSON (code : Z) (data : Payload) : Response :=
  {| Code := code; ContentType := "application/json"; Data := data |}.

Definition writeError (code : Z) (msg : string) : Response :=
  writeJSON code (PError {| jr_OK := false; jr_Error := msg |}).

Definition writeOK (data : Payload) : Response := writeJSON StatusOK data.

(** ** Handlers *)

Definition handlePing (r : Request) : M Response :=
  ret (writeOK (PMap (<["ok" := true]> (<["pong" := true]> ∅)))).

(** [handleStatus]; [now] is the clock read by [time.Since]. *)
Definition handleStatus (r : Request) (now : Time) : M Response :=
  if negb (String.eqb (Method r) MethodGet) then
    ret (writeError StatusMethodNotAllowed "method not allowed")
  else
    waClient <- gets wa ;;
    waConnected <- match waClient with
                   | None => ret false
                   | Some c => isConnected c
                   end ;;
    res <- listChats "" 100000 ;;
    let chatsCount := match res.2 with
                      | None => Z.of_nat (length res.1)
                      | Some _ => 0
                      end in
    cnt <- countMessages ;;
    let msgsCount := cnt.1 in
    running <- gets syncRunning ;;
    start <- gets startTime ;;
    fts <- hasFTS ;;
    ret (writeOK (PStatus {| st_OK := true;
                             st_SyncRunning := running;
                             st_WAConnected := waConnected;
                             st_ChatsCount := chatsCount;
                             st_MessagesCount := msgsCount;
                             st_Uptime := durationString (now - start);
                             st_FTSEnabled := fts |})).

Definition chatToJSON (c : Chat) : chatJSON :=
  {| cj_JID := c_JID c; cj_Kind := c_Kind c; cj_Name := c_Name c;
     cj_LastMessageTS := formatRFC3339 (c_LastMessageTS c) |}.

Definition handleChats (r : Request) : M Response :=
  if negb (String.eqb (Method r) MethodGet) then
    ret (writeError StatusMethodNotAllowed "method not allowed")
  else
    let query := Get (Query r) "query" in
    let limitStr := Get (Query r) "limit" in
    let limit :=
      if String.eqb limitStr "" then 50
      else match Strings.Atoi limitStr with
           | Some l => if 0 <? l then l else 50
           | None => 50
           end in
    res <- listChats query limit ;;
    match res.2 with
    | Some err => ret (writeError StatusInternalServerError err)
    | None => ret (writeOK (PChats true (map chatToJSON res.1)))
    end.

Definition messageToJSON (m : Message) : messageJSON :=
  {| mj_ChatJID := m_ChatJID m; mj_ChatName := m_ChatName m;
     mj_MsgID := m_MsgID m; mj_SenderJID := m_SenderJID m;
     mj_Timestamp := formatRFC3339 (m_Timestamp m);
     mj_FromMe := m_FromMe m; mj_Text := m_Text m;
     mj_DisplayText := m_DisplayText m; mj_MediaType := m_MediaType m |}.

(** The [before] and [after] bounds of [handleMessages]: nil unless the
    parameter is present and parses. *)
Definition timeBound (str : string) : option Time :=
  if String.eqb str "" then None
  else match (parseRFC3339 str).2 with
       | None => Some (parseRFC3339 str).1
       | Some _ => None
       end.

Definition handleMessages (r : Request) : M Response :=
  if negb (String.eqb (Method r) MethodGet) then
    ret (writeError StatusMethodNotAllowed "method not allowed")
  else
    let chatJID := Get (Query r) "chat_jid" in
    if String.eqb chatJID "" then
      ret (writeError StatusBadRequest "chat_jid is required")
    else
      let limit := match Strings.Atoi (Get (Query r) "limit") with
                   | Some l => if 0 <? l then l else 50
                   | None => 50
                   end in
      let before := timeBound (Get (Query r) "before") in
      let after := timeBound (Get (Query r) "after") in
      res <- listMessages {| lm_ChatJID := chatJID; lm_Limit := limit;
                             lm_Before := before; lm_After := after |} ;;
      match res.2 with
      | Some err => ret (writeError StatusInternalServerError err)
      | None => ret (writeOK (PMessages true (map messageToJSON res.1)))
      end.

Definition handleSearch (r : Request) : M Response :=
  if negb (String.eqb (Method r) MethodPost) && negb (String.eqb (Method r) MethodGet)
  then ret (writeError StatusMethodNotAllowed "method not allowed")
  else
    let decoded :=
      if String.eqb (Method r) MethodGet then
        ({| sr_Query := Get (Query r) "query";
            sr_ChatJID := Get (Query r) "chat_jid";
            sr_Limit := match Strings.Atoi (Get (Query r) "limit") with
                        | Some l => l
                        | None => 0
                        end |}, None)
      else decodeSearch (Body r) in
    match decoded.2 with
    | Some err => ret (writeError StatusBadRequest ("invalid JSON: " ++ err))
    | None =>
        let req := decoded.1 in
        if String.eqb (Strings.TrimSpace (sr_Query req)) "" then
          ret (writeError StatusBadRequest "query is required")
        else
          let limit := if sr_Limit req <=? 0 then 50 else sr_Limit req in
          res <- searchMessages {| sm_Query := sr_Query req;
                                   sm_ChatJID := sr_ChatJID req;
                                   sm_Limit := limit |} ;;
          match res.2 with
          | Some err => ret (writeError StatusInternalServerError err)
          | None => ret (writeOK (PSearch true (map messageToJSON res.1)))
          end
    end.

Definition sendError (code : Z) (msg : string) : Response :=
  writeJSON code (PSend {| sp_OK := false; sp_MessageID := ""; sp_Error := msg |}).

(** The recipient [handleSend] reads from a body: [to], or its alias
    [chat_jid] when [to] is blank. *)
Definition recipient (req : sendRequest) : string :=
  let to := Strings.TrimSpace (sq_To req) in
  if String.eqb to "" then Strings.TrimSpace (sq_ChatJID req) else to.

(** The chat kind [handleSend] stores for a recipient. *)
Definition chatKind (toJID : JID) : string :=
  if String.eqb (types.Server toJID) GroupServer then "group"
  else if IsBroadcastList toJID then "broadcast"
  else "dm".

(** The message [handleSend] stores after a successful send. *)
Definition sentMessage (toJID : JID) (chatName msgID text : string) (now : Time)
  : UpsertMessageParams :=
  {| um_ChatJID := JIDString toJID; um_ChatName := chatName; um_MsgID := msgID;
     um_SenderJID := ""; um_SenderName := "me"; um_Timestamp := now;
     um_FromMe := true; um_Text := text |}.

(** [handleSend]; [now] is [time.Now().UTC()] after the send. *)
Definition handleSend (r : Request) (now : Time) : M Response :=
  if negb (String.eqb (Method r) MethodPost) then
    ret (writeError StatusMethodNotAllowed "method not allowed")
  else
    bound <- gets wa ;;
    connected <- match bound with
                 | None => ret false
                 | Some c => isConnected c
                 end ;;
    match bound, connected with
    | Some waClient, true =>
        let decoded := decodeSend (Body r) in
        match decoded.2 with
        | Some err => ret (sendError StatusBadRequest ("invalid JSON: " ++ err))
        | None =>
            let req := decoded.1 in
            let to := recipient req in
            if String.eqb to "" then
              ret (sendError StatusBadRequest "to or chat_jid is required")
            else if String.eqb (Strings.TrimSpace (sq_Message req)) "" then
              ret (sendError StatusBadRequest "message is required")
            else
              let parsed := ParseUserOrJID to in
              match parsed.2 with
              | Some err =>
                  ret (sendError StatusBadRequest ("invalid recipient: " ++ err))
              | None =>
                  let toJID := parsed.1 in
                  sent <- sendText waClient toJID (sq_Message req) ;;
                  match sent.2 with
                  | Some err =>
                      logMsg "error" "failed to send message via RPC" ;;;
                      ret (sendError StatusInternalServerError
                             ("send failed: " ++ err))
                  | None =>
                      let msgID := sent.1 in
                      logMsg "info" "message sent via RPC" ;;;
                      chatName <- resolveChatName waClient toJID "" ;;
                      let kind := chatKind toJID in
                      upsertChat (JIDString toJID) kind chatName now ;;;
                      upsertMessage {| um_ChatJID := JIDString toJID;
                                       um_ChatName := chatName;
                                       um_MsgID := msgID;
                                       um_SenderJID := "";
                                       um_SenderName := "me";
                                       um_Timestamp := now;
                                       um_FromMe := true;
                                       um_Text := sq_Message req |} ;;;
                      ret (writeJSON StatusOK
                             (PSend {| sp_OK := true; sp_MessageID := msgID;
                                       sp_Error := "" |}))
                  end
              end
        end
    | _, _ =>
        ret (sendError StatusServiceUnavailable "WhatsApp not connected")
    end.

(** The handler registered for a route. *)
Definition handler (rt : Route) (r : Request) (now : Time) : M Response :=
  match rt with
  | RouteStatus => handleStatus r now
  | RouteChats => handleChats r
  | RouteMessages => handleMessages r
  | RouteSearch => handleSearch r
  | RouteSend => handleSend r now
  | RoutePing => handlePing r
  end.

(** The route of a path: the first registered pattern equal to it. *)
Fixpoint lookupRoute (mux : list (string * Route)) (path : string) : option Route :=
  match mux with
  | [] => None
  | (pat, rt) :: rest => if String.eqb pat path then Some rt else lookupRoute rest path
  end.

(** ** Histories

    What happens to a server between its construction and a request: the
    owner's calls, earlier requests, and the sync task writing to the
    store. *)
Inductive Op :=
| OpSetWA (c : option WAClient)
| OpSetSyncRunning (running : bool)
| OpStart (listen : option error)
| OpStop (ctx : Context)
| OpRequest (rt : Route) (r : Request) (now : Time)
| OpSync (write : DB -> DB).

Definition step (s : Server DB) (o : Op) : Server DB :=
  match o with
  | OpSetWA c => (SetWA c s).1.2
  | OpSetSyncRunning b => (SetSyncRunning b s).1.2
  | OpStart listen => (Start listen s).1.2
  | OpStop ctx => (Stop ctx s).1.2
  | OpRequest rt r now => (handler rt r now s).1.2
  | OpSync write => set_db (write (db s)) s
  end.

Definition run (ops : list Op) (s : Server DB) : Server DB :=
  fold_left step ops s.

(** The value of the last [SetSyncRunning] of a history, [init] when
    there is none. *)
Fixpoint lastSyncRunning (ops : list Op) (init : bool) : bool :=
  match ops with
  | [] => init
  | OpSetSyncRunning b :: rest => lastSyncRunning rest b
  | _ :: rest => lastSyncRunning rest init
  end.

(** The client of the last [SetWA] of a history. *)
Fixpoint lastClient (ops : list Op) (init : option WAClient) : option WAClient :=
  match ops with
  | [] => init
  | OpSetWA c :: rest => lastClient rest c
  | _ :: rest => lastClient rest init
  end.

(** Everything of the server but the content of its store. *)
Definition sameButDB (s s' : Server DB) : Prop :=
  addr s' = addr s /\ wa s' = wa s /\ server s' = server s
  /\ syncRunning s' = syncRunning s /\ startTime s' = startTime s.

(** A computation that only writes to the store. *)
Definition frames {A : Type} (m : M A) : Prop :=
  forall s, sameButDB s (m s).1.2.

(** [Stop] called once per context of the list, in order. *)
Fixpoint stops (ctxs : list Context) : M (list (option error)) :=
  match ctxs with
  | [] => ret []
  | ctx :: rest => e <- Stop ctx ;; es <- stops rest ;; ret (e :: es)
  end.

End Rpc.

Arguments OpSetWA {DB} c.
Arguments OpSetSyncRunning {DB} running.
Arguments OpStart {DB} listen.
Arguments OpStop {DB} ctx.
Arguments OpRequest {DB} rt r now.
Arguments OpSync {DB} write.

(** ** The store *)

Module StoreModel.

(** Whether [sub] occurs in [s]. *)
Fixpoint contains (sub s : string) : bool :=
  String.prefix sub s
  || match s with
     | EmptyString => false
     | String _ rest => contains sub rest
     end.

(** Modelled from the spec: package [internal/store] is not among the
    sources.  Chats are unique by identifier and messages by chat and
    message identifier, so that upserts are idempotent; [fault] is the
    error of a failing storage engine, which every operation then
    returns.  The spec gives each operation its signature only and does
    not say which value accompanies an error: the model returns the empty
    list or zero, and no property below rests on that value. *)
Record MemDB := {
  chats : gmap string Chat;
  messages : gmap (string * string) Message;
  fts : bool;
  fault : option error;
}.

(** Modelled from the spec: [UpsertChat(id, kind, name, lastSeen)]. *)
Definition upsertChat (d : MemDB) (id kind name : string) (lastSeen : Time)
  : MemDB * option error :=
  match fault d with
  | Some e => (d, Some e)
  | None =>
      ({| chats := <[id := {| c_JID := id; c_Kind := kind; c_Name := name;
                              c_LastMessageTS := lastSeen |}]> (chats d);
          messages := messages d; fts := fts d; fault := fault d |}, None)
  end.

(** Modelled from the spec: [UpsertMessage(params)], keyed by chat and
    message identifier; the display text of a stored message is its text. *)
Definition upsertMessage (d : MemDB) (p : UpsertMessageParams)
  : MemDB * option error :=
  match fault d with
  | Some e => (d, Some e)
  | None =>
      ({| chats := chats d;
          messages :=
            <[(um_ChatJID p, um_MsgID p) :=
                {| m_ChatJID := um_ChatJID p; m_ChatName := um_ChatName p;
                   m_MsgID := um_MsgID p; m_SenderJID := um_SenderJID p;
                   m_Timestamp := um_Timestamp p; m_FromMe := um_FromMe p;
                   m_Text := um_Text p; m_DisplayText := um_Text p;
                   m_MediaType := "" |}]> (messages d);
          fts := fts d; fault := fault d |}, None)
  end.

(** Modelled from the spec: [ListChats(filter, limit)], the chats whose
    name or identifier contains the filter, at most [limit] of them. *)
Definition listChats (d : MemDB) (filter : string) (limit : Z)
  : list Chat * option error :=
  match fault d with
  | Some e => ([], Some e)
  | None =>
      (take (Z.to_nat limit)
         (List.filter (fun c => contains filter (c_Name c) || contains filter (c_JID c))
            ((map_to_list (chats d)).*2)), None)
  end.

Definition inBounds (before after : option Time) (t : Time) : bool :=
  match before with Some b => t <? b | None => true end
  && match after with Some a => a <? t | None => true end.

(** Modelled from the spec: [ListMessages(params)], the messages of the
    chat within the optional bounds, at most [limit] of them. *)
Definition listMessages (d : MemDB) (p : ListMessagesParams)
  : list Message * option error :=
  match fault d with
  | Some e => ([], Some e)
  | None =>
      (take (Z.to_nat (lm_Limit p))
         (List.filter (fun m => String.eqb (m_ChatJID m) (lm_ChatJID p)
                                && inBounds (lm_Before p) (lm_After p) (m_Timestamp m))
            ((map_to_list (messages d)).*2)), None)
  end.

(** Modelled from the spec: [SearchMessages(params)], the messages whose
    text contains the query, within the chat when one is given. *)
Definition searchMessages (d : MemDB) (p : SearchMessagesParams)
  : list Message * option error :=
  match fault d with
  | Some e => ([], Some e)
  | None =>
      (take (Z.to_nat (sm_Limit p))
         (List.filter (fun m => contains (sm_Query p) (m_Text m)
                                && (String.eqb (sm_ChatJID p) ""
                                    || String.eqb (m_ChatJID m) (sm_ChatJID p)))
            ((map_to_list (messages d)).*2)), None)
  end.

(** Modelled from the spec: [CountMessages() -> (count, error)], the
    total message count.  The count returned together with an error is
    not fixed by the spec; it is zero here. *)
Definition countMessages (d : MemDB) : Z * option error :=
  match fault d with
  | Some e => (0, Some e)
  | None => (Z.of_nat (size (messages d)), None)
  end.

#[export] Instance memStore : Store MemDB := {
  UpsertChat := upsertChat;
  UpsertMessage := upsertMessage;
  ListChats := listChats;
  ListMessages := listMessages;
  SearchMessages := searchMessages;
  CountMessages := countMessages;
  HasFTS := fts;
}.

Definition empty : MemDB :=
  {| chats := ∅; messages := ∅; fts := true; fault := None |}.

End StoreModel.

(** ** Test doubles

    The mock client of the package's tests, and library functions that are
    defined on the inputs of those tests. *)

Module Test.

Definition quote : string := String "034"%char EmptyString.

Fixpoint jsonFields (fields : list (string * string)) : string :=
  match fields with
  | [] => ""
  | (k, v) :: rest =>
      quote ++ k ++ quote ++ ": " ++ quote ++ v ++ quote
      ++ match rest with [] => "" | _ => ", " ++ jsonFields rest end
  end.

Definition jsonObject (fields : list (string * string)) : string :=
  "{" ++ jsonFields fields ++ "}".

(** The body of [TestServer_Send]. *)
Definition sendBody : string :=
  jsonObject [("to", "123456789"); ("message", "Hello from RPC!")].

(** A body addressed to a group through the alias field. *)
Definition groupBody : string :=
  jsonObject [("chat_jid", "12345-678@g.us"); ("message", "hi all")].

(** A body with a blank message. *)
Definition blankBody : string :=
  jsonObject [("to", "123456789"); ("message", "  ")].

Definition sendBodies : list (string * sendRequest) :=
  [(sendBody, {| sq_To := "123456789"; sq_Message := "Hello from RPC!";
                 sq_ChatJID := "" |});
   (groupBody, {| sq_To := ""; sq_Message := "hi all";
                  sq_ChatJID := "12345-678@g.us" |});
   (blankBody, {| sq_To := "123456789"; sq_Message := "  ";
                  sq_ChatJID := "" |})].

Definition searchBodies : list (string * searchRequest) :=
  [(jsonObject [("query", "world")],
    {| sr_Query := "world"; sr_ChatJID := ""; sr_Limit := 0 |})].

Fixpoint assoc {A : Type} (table : list (string * A)) (key : string) : option A :=
  match table with
  | [] => None
  | (k, v) :: rest => if String.eqb k key then Some v else assoc rest key
  end.

Definition timestamps : list (string * Time) :=
  [("2024-01-01T00:00:00Z", 1704067200000000000)].

(** Splits an identifier at its first [@]. *)
Fixpoint splitAt (s : string) : string * option string :=
  match s with
  | EmptyString => ("", None)
  | String a rest =>
      if Ascii.eqb a "@"%char then ("", Some rest)
      else let r := splitAt rest in (String a r.1, r.2)
  end.

#[export] Instance lib : Lib := {
  decodeSearch body :=
    match assoc searchBodies body with
    | Some req => (req, None)
    | None => ({| sr_Query := ""; sr_ChatJID := ""; sr_Limit := 0 |},
               Some "invalid character")
    end;
  decodeSend body :=
    match assoc sendBodies body with
    | Some req => (req, None)
    | None => ({| sq_To := ""; sq_Message := ""; sq_ChatJID := "" |},
               Some "invalid character")
    end;
  parseRFC3339 str :=
    match assoc timestamps str with
    | Some t => (t, None)
    | None => (0, Some "cannot parse")
    end;
  formatRFC3339 t :=
    if t =? 1704067200000000000 then "2024-01-01T00:00:00Z"
    else "0001-01-01T00:00:00Z";
  durationString d := "0s";
  ParseUserOrJID str :=
    match splitAt str with
    | (user, None) =>
        ({| types.User := user; types.RawAgent := 0; types.Device := 0;
            types.Integrator := 0; types.Server := "s.whatsapp.net" |}, None)
    | (user, Some srv) =>
        if String.eqb srv "" then
          ({| types.User := ""; types.RawAgent := 0; types.Device := 0;
              types.Integrator := 0; types.Server := "" |}, Some "invalid JID")
        else
          ({| types.User := user; types.RawAgent := 0; types.Device := 0;
              types.Integrator := 0; types.Server := srv |}, None)
    end;
  GroupServer := "g.us";
  IsBroadcastList j :=
    String.eqb (types.Server j) "broadcast"
    && negb (String.eqb (types.User j) "status");
  JIDString j :=
    if String.eqb (types.User j) "" then types.Server j
    else types.User j ++ "@" ++ types.Server j;
}.

(** [mockWA] of the tests: [SendText] always succeeds with the same
    identifier. *)
Definition mockWA (connected : bool) : WAClient :=
  {| IsConnected := connected;
     SendText := fun _ _ => ("test_msg_id", None);
     ResolveChatName := fun _ _ => "Test Chat" |}.

(** A client whose send fails. *)
Definition failingWA : WAClient :=
  {| IsConnected := true;
     SendText := fun _ _ => ("", Some "not logged in");
     ResolveChatName := fun _ _ => "" |}.

(** A store of one chat whose [CountMessages] fails after it has counted
    seven messages, returning both the count and the error. *)
Definition staleStore : Store unit :=
  {| UpsertChat := fun d _ _ _ _ => (d, None);
     UpsertMessage := fun d _ => (d, None);
     ListChats := fun _ _ _ =>
       ([{| c_JID := "123456789@s.whatsapp.net"; c_Kind := "dm";
            c_Name := "Test Chat"; c_LastMessageTS := 0 |}], None);
     ListMessages := fun _ _ => ([], None);
     SearchMessages := fun _ _ => ([], None);
     CountMessages := fun _ => (7, Some "database is locked");
     HasFTS := fun _ => false |}.

(** The server of the tests over the modelled store. *)
Definition mkServer (d : StoreModel.MemDB) (c : option WAClient)
  : Server StoreModel.MemDB :=
  {| addr := "localhost:0"; db := d; wa := c; server := None;
     syncRunning := false; startTime := 0 |}.

Definition post (path body : string) : Request :=
  {| Method := MethodPost; Path := path; Query := []; Body := body |}.

Definition get (path : string) (query : list (string * string)) : Request :=
  {| Method := MethodGet; Path := path; Query := query; Body := "" |}.

End Test.

(** ** Trimmed byte lists *)

(** Whether [dropSpace] finds no white-space rune at the head of the
    list: the condition under which it returns its argument. *)
Definition startsTrimmed (rev : bool) (l : list ascii) : bool :=
  match l with
  | [] => true
  | a :: r1 =>
      negb (Strings.asciiSpace a)
      && match r1 with
         | [] => true
         | b :: r2 =>
             negb (if rev then Strings.space2 b a else Strings.space2 a b)
             && match r2 with
                | [] => true
                | c :: _ =>
                    negb (if rev then Strings.space3 c b a
                          else Strings.space3 a b c)
                end
         end
  end.

(** ** Command helpers ([cmd/wacli/helpers.go]) *)

Module Helpers.

(** [strings.ReplaceAll] for patterns of one byte. *)
Fixpoint replaceByte (old new : ascii) (s : string) : string :=
  match s with
  | EmptyString => EmptyString
  | String a rest =>
      String (if Ascii.eqb a old then new else a) (replaceByte old new rest)
  end.

(** The suffix [truncate] appends, byte for byte as the source file has
    it: [195 162 226 130 172 194 166]. *)
Definition ellipsis : string :=
  String "195" (String "162" (String "226" (String "130"
    (String "172" (String "194" (String "166" EmptyString)))))).

(** [truncate]; [len] and the slices count bytes. *)
Definition truncate (s : string) (max : Z) : string :=
  let s := replaceByte "010" " " s in
  let s := Strings.TrimSpace s in
  if (max <=? 0) || (Z.of_nat (String.length s) <=? max) then s
  else if max <=? 1 then substring 0 (Z.to_nat max) s
  else substring 0 (Z.to_nat (max - 1)) s ++ ellipsis.

(** The zero [time.Time], first instant of year 1. *)
Definition zeroTime : Time := -62135596800000000000.

Section ParseTime.

Context `{!Lib}.

(** [time.ParseInLocation] in UTC for the layouts [2006-01-02 15:04:05]
    and [2006-01-02], and the verb [%q] of [fmt]. *)
Variable parseDateTime : string -> Time * option error.
Variable parseDate : string -> Time * option error.
Variable quoted : string -> string.

(** [parseTime]; converting to UTC keeps the instant. *)
Definition parseTime (s : string) : Time * option error :=
  let s := Strings.TrimSpace s in
  if String.eqb s "" then (zeroTime, Some "time is required")
  else
    match (parseRFC3339 s).2 with
    | None => ((parseRFC3339 s).1, None)
    | Some _ =>
        match (parseDateTime s).2 with
        | None => ((parseDateTime s).1, None)
        | Some _ =>
            match (parseDate s).2 with
            | None => ((parseDate s).1, None)
            | Some _ =>
                (zeroTime,
                 Some ("unsupported time format " ++ quoted s
                       ++ " (use RFC3339, YYYY-MM-DD HH:MM:SS, or YYYY-MM-DD; all times UTC)"))
            end
        end
    end.

End ParseTime.

End Helpers.

(** ** Log levels ([internal/logging/logging.go]) *)

Module Logging.

(** [zerolog.Level]. *)
Inductive Level :=
| DebugLevel | InfoLevel | WarnLevel | ErrorLevel | FatalLevel | PanicLevel
| NoLevel | Disabled | TraceLevel.

(** The numeric value of a level; the global level lets through the
    events at or above it. *)
Definition levelValue (l : Level) : Z :=
  match l with
  | DebugLevel => 0
  | InfoLevel => 1
  | WarnLevel => 2
  | ErrorLevel => 3
  | FatalLevel => 4
  | PanicLevel => 5
  | NoLevel => 6
  | Disabled => 7
  | TraceLevel => -1
  end.

Section ParseLevel.

(** [strings.ToLower]. *)
Variable ToLower : string -> string.

Definition parseLevel (s : string) : Level :=
  let v := ToLower (Strings.TrimSpace s) in
  if String.eqb v "trace" then TraceLevel
  else if String.eqb v "debug" then DebugLevel
  else if String.eqb v "info" then InfoLevel
  else if String.eqb v "warn" || String.eqb v "warning" then WarnLevel
  else if String.eqb v "error" then ErrorLevel
  else if String.eqb v "" then WarnLevel
  else InfoLevel.

End ParseLevel.

End Logging.

(** ** The client wrapper ([cmd/wacli/rpc.go]) *)

(** [waWrapper] around the client of the application, nil when [inner]
    is [None].  [SendText] and [ResolveChatName] call through the inner
    client without a nil check; [nilSend] and [nilName] stand for what
    such a call on a nil client would amount to. *)
Definition waWrapper (inner : option WAClient)
  (nilSend : string * option error) (nilName : string) : WAClient :=
  {| IsConnected := match inner with
                    | None => false
                    | Some c => IsConnected c
                    end;
     SendText := fun to text =>
       match inner with
       | Some c => SendText c to text
       | None => nilSend
       end;
     ResolveChatName := fun chat pushName =>
       match inner with
       | Some c => ResolveChatName c chat pushName
       | None => nilName
       end |}.

(** * Properties *)

(** ** Library functions on sample inputs *)

Example TrimSpace_samples :
  Strings.TrimSpace "  hi there	" = "hi there"
  /\ Strings.TrimSpace "   " = ""
  /\ Strings.TrimSpace "" = ""
  /\ Strings.TrimSpace (String "194" (String "160" "x ")) = "x".
Proof. repeat split; reflexivity. Qed.

Example Atoi_samples :
  Strings.Atoi "42" = Some 42 /\ Strings.Atoi "-7" = Some (-7)
  /\ Strings.Atoi "+0" = Some 0 /\ Strings.Atoi "" = None
  /\ Strings.Atoi "4x" = None /\ Strings.Atoi "-" = None
  /\ Strings.Atoi "9223372036854775807" = Some maxInt
  /\ Strings.Atoi "9223372036854775808" = None.
Proof. repeat split; reflexivity. Qed.

Example Get_first_value :
  Get [("limit", "5"); ("chat_jid", "a"); ("limit", "9")] "limit" = "5"
  /\ Get [("limit", "5")] "before" = "".
Proof. split; reflexivity. Qed.

Section Facts.

Context {DB : Type} `{!Store DB} `{!Lib}.

(** ** What a computation leaves untouched *)

Lemma sameButDB_refl (s : Server DB) : sameButDB s s.
Proof. repeat split. Qed.

Lemma sameButDB_trans (s1 s2 s3 : Server DB) :
  sameButDB s1 s2 -> sameButDB s2 s3 -> sameButDB s1 s3.
Proof.
  unfold sameButDB. intros (?&?&?&?&?) (?&?&?&?&?).
  repeat split; congruence.
Qed.

Lemma frames_ret {A : Type} (a : A) : frames (DB := DB) (ret a).
Proof. intros s. apply sameButDB_refl. Qed.

Lemma frames_gets {A : Type} (f : Server DB -> A) : frames (gets f).
Proof. intros s. apply sameButDB_refl. Qed.

Lemma frames_emit (e : Event) : frames (DB := DB) (emit e).
Proof. intros s. apply sameButDB_refl. Qed.

Lemma frames_set_db (d : DB) : frames (modify (set_db d)).
Proof. intros s. repeat split. Qed.

Lemma frames_bind {A B : Type} (m : M (DB := DB) A) (f : A -> M (DB := DB) B) :
  frames m -> (forall a, frames (f a)) -> frames (bind m f).
Proof.
  intros Hm Hf s. unfold bind.
  pose proof (Hm s) as H1. destruct (m s) as [[a s1] t1]. cbn in H1.
  pose proof (Hf a s1) as H2. destruct (f a s1) as [[b s2] t2]. cbn in *.
  now apply sameButDB_trans with s1.
Qed.

Create HintDb frame.

#[local] Hint Resolve frames_ret frames_gets frames_emit frames_set_db : frame.

Ltac frame_step :=
  first [ apply frames_bind; [| intros ?]
        | solve [auto with frame]
        | match goal with
          | |- frames (match ?x with _ => _ end) => destruct x
          | |- frames (if ?b then _ else _) => destruct b
          end ].

Ltac frame := repeat frame_step.

(** Runs a computation of [M] on the state it is applied to. *)
Ltac run_m :=
  unfold isConnected, sendText, resolveChatName, upsertChat, upsertMessage,
    listChats, listMessages, searchMessages, countMessages, hasFTS, logMsg,
    bind, ret, gets, modify, emit;
  cbn.

Lemma frames_handler (rt : Route) (r : Request) (now : Time) :
  frames (handler rt r now).
Proof.
  destruct rt; cbn [handler].
  - unfold handleStatus, isConnected, listChats, countMessages, hasFTS. frame.
  - unfold handleChats, listChats. frame.
  - unfold handleMessages, listMessages. frame.
  - unfold handleSearch, searchMessages. frame.
  - unfold handleSend, isConnected, sendText, resolveChatName, upsertChat,
      upsertMessage, logMsg. frame.
  - unfold handlePing. frame.
Qed.

(** ** The health check *)

(** C9: every request to [/ping] is routed to [handlePing], which answers
    200 with [ok] and [pong] both true, whatever the method, the server's
    state and its client binding; it touches nothing and calls nothing. *)
Theorem ping_always_pong (r : Request) (now : Time) (s : Server DB) :
  lookupRoute routes "/ping" = Some RoutePing
  /\ handler RoutePing r now s = handlePing r s
  /\ (handlePing r s).1.2 = s
  /\ (handlePing r s).2 = []
  /\ Code (handlePing r s).1.1 = StatusOK
  /\ okField (Data (handlePing r s).1.1) = Some true
  /\ exists m : gmap string bool,
       Data (handlePing r s).1.1 = PMap m
       /\ m !! "ok" = Some true /\ m !! "pong" = Some true.
Proof.
  repeat split; try reflexivity.
  eexists. split; [reflexivity |]. split; reflexivity.
Qed.

(** ** The send handler: validation order *)

(** C1: a POST to [/send] on a server with no client, or with a client
    that reports itself disconnected, is answered 503 with [ok] false
    whatever the body is; the body is not decoded, nothing is sent and
    nothing is stored. *)
Theorem send_unavailable_before_body (r : Request) (now : Time) (s : Server DB) :
  Method r = MethodPost ->
  (wa s = None \/ exists c, wa s = Some c /\ IsConnected c = false) ->
  (handleSend r now s).1.1
    = sendError StatusServiceUnavailable "WhatsApp not connected"
  /\ Code (handleSend r now s).1.1 = StatusServiceUnavailable
  /\ okField (Data (handleSend r now s).1.1) = Some false
  /\ (handleSend r now s).1.2 = s
  /\ (forall e, In e (handleSend r now s).2 -> e = EvIsConnected).
Proof.
  intros Hm Hwa. unfold handleSend. rewrite Hm. cbn.
  destruct Hwa as [Hnone | (c & Hc & Hdis)].
  - rewrite Hnone. cbn. repeat split; try reflexivity. intros e [].
  - rewrite Hc. cbn. rewrite Hdis. cbn. repeat split; try reflexivity.
    intros e [He | []]. congruence.
Qed.

(** ** The status handler *)

(** What [handleStatus] computes on a GET: it reads the server, asks the
    client and the store, and changes nothing. *)
Lemma handleStatus_get (r : Request) (now : Time) (s : Server DB) :
  Method r = MethodGet ->
  handleStatus r now s =
    (writeOK
       (PStatus
          {| st_OK := true;
             st_SyncRunning := syncRunning s;
             st_WAConnected := match wa s with
                               | None => false
                               | Some c => IsConnected c
                               end;
             st_ChatsCount := match (ListChats (db s) "" 100000).2 with
                              | None => Z.of_nat (length (ListChats (db s) "" 100000).1)
                              | Some _ => 0
                              end;
             st_MessagesCount := (CountMessages (db s)).1;
             st_Uptime := durationString (now - startTime s);
             st_FTSEnabled := HasFTS (db s) |}),
     s,
     (match wa s with None => [] | Some _ => [EvIsConnected] end
      ++ [EvListChats "" 100000; EvCountMessages; EvHasFTS])%list).
Proof.
  intros Hm. unfold handleStatus. rewrite Hm. cbn.
  destruct (wa s); run_m; reflexivity.
Qed.

(** C6: when the chat listing of a GET [/status] fails, the handler
    reports zero chats and still answers 200 with [ok] true. *)
Theorem status_survives_chat_listing_error
  (r : Request) (now : Time) (s : Server DB) (e : error) :
  Method r = MethodGet ->
  (ListChats (db s) "" 100000).2 = Some e ->
  Code (handleStatus r now s).1.1 = StatusOK
  /\ okField (Data (handleStatus r now s).1.1) = Some true
  /\ exists st, Data (handleStatus r now s).1.1 = PStatus st
               /\ st_ChatsCount st = 0.
Proof.
  intros Hm Herr. rewrite (handleStatus_get r now s Hm). cbn.
  repeat split. eexists. split; [reflexivity |]. cbn. now rewrite Herr.
Qed.

(** How one step of a history acts on the sync flag and on the binding. *)
Lemma step_syncRunning (s : Server DB) (o : Op) :
  syncRunning (step s o)
  = match o with OpSetSyncRunning b => b | _ => syncRunning s end.
Proof.
  destruct o as [c | b | listen | ctx | rt r now | write]; cbn; try reflexivity.
  - destruct listen; reflexivity.
  - unfold Stop, bind, gets. cbn. destruct (server s); reflexivity.
  - apply (frames_handler rt r now s).
Qed.

Lemma step_wa (s : Server DB) (o : Op) :
  wa (step s o) = match o with OpSetWA c => c | _ => wa s end.
Proof.
  destruct o as [c | b | listen | ctx | rt r now | write]; cbn; try reflexivity.
  - destruct listen; reflexivity.
  - unfold Stop, bind, gets. cbn. destruct (server s); reflexivity.
  - apply (frames_handler rt r now s).
Qed.

Lemma run_syncRunning (ops : list Op) (s : Server DB) :
  syncRunning (run ops s) = lastSyncRunning ops (syncRunning s).
Proof.
  revert s. induction ops as [| o ops IH]; intros s; [reflexivity |].
  cbn [run fold_left]. fold (run ops (step s o)). rewrite IH, step_syncRunning.
  destruct o; reflexivity.
Qed.

Lemma run_wa (ops : list Op) (s : Server DB) :
  wa (run ops s) = lastClient ops (wa s).
Proof.
  revert s. induction ops as [| o ops IH]; intros s; [reflexivity |].
  cbn [run fold_left]. fold (run ops (step s o)). rewrite IH, step_wa.
  destruct o; reflexivity.
Qed.

(** C7: after any history of a newly constructed server (calls of its
    owner, earlier requests, writes of the sync task), a GET [/status]
    reports as [sync_running] the value of the last [SetSyncRunning],
    false when there was none, and as [wa_connected] what the currently
    bound client answers to [IsConnected], false when none is bound. *)
Theorem status_reports_sync_flag_and_connection
  (opts : Options DB) (t0 : Time) (s0 : Server DB) (ops : list Op)
  (r : Request) (now : Time) :
  New opts t0 = inl s0 ->
  Method r = MethodGet ->
  exists st,
    Data (handleStatus r now (run ops s0)).1.1 = PStatus st
    /\ st_SyncRunning st = lastSyncRunning ops false
    /\ st_WAConnected st = match lastClient ops (o_WA opts) with
                           | None => false
                           | Some c => IsConnected c
                           end
    /\ (lastClient ops (o_WA opts) = None -> st_WAConnected st = false).
Proof.
  intros Hnew Hm. rewrite (handleStatus_get r now _ Hm). cbn.
  eexists. split; [reflexivity |]. cbn.
  rewrite run_syncRunning, run_wa.
  unfold New in Hnew. destruct (o_DB opts); [| discriminate].
  injection Hnew as <-. cbn.
  repeat split. intros ->. reflexivity.
Qed.

(** ** The send handler: delivery and persistence *)

(** A request that passes every check and whose send succeeds: the
    result, the final store and the calls, in order. *)
Lemma handleSend_delivered
  (r : Request) (now : Time) (s : Server DB) (c : WAClient)
  (req : sendRequest) (toJID : JID) (msgID : string) :
  Method r = MethodPost ->
  wa s = Some c ->
  IsConnected c = true ->
  decodeSend (Body r) = (req, None) ->
  recipient req <> "" ->
  Strings.TrimSpace (sq_Message req) <> "" ->
  ParseUserOrJID (recipient req) = (toJID, None) ->
  SendText c toJID (sq_Message req) = (msgID, None) ->
  let chatName := ResolveChatName c toJID "" in
  let p := sentMessage toJID chatName msgID (sq_Message req) now in
  let d1 := (UpsertChat (db s) (JIDString toJID) (chatKind toJID) chatName now).1 in
  let d2 := (UpsertMessage d1 p).1 in
  handleSend r now s =
    (writeJSON StatusOK
       (PSend {| sp_OK := true; sp_MessageID := msgID; sp_Error := "" |}),
     set_db d2 s,
     [EvIsConnected; EvSendText toJID (sq_Message req);
      EvLog "info" "message sent via RPC"; EvResolveChatName toJID "";
      EvUpsertChat (JIDString toJID) (chatKind toJID) chatName now;
      EvUpsertMessage p]).
Proof.
  intros Hm Hwa Hconn Hdec Hto Hmsg Hjid Hsend chatName p d1 d2.
  apply String.eqb_neq in Hto, Hmsg.
  unfold handleSend. rewrite Hm. cbn. run_m.
  rewrite Hwa. cbn. rewrite Hconn, Hdec. cbn.
  rewrite Hto, Hmsg, Hjid. cbn. rewrite Hsend. cbn.
  reflexivity.
Qed.

(** C3: when the send of a POST [/send] succeeds, the chat is upserted
    and then the message, as the last two calls of the handler, and the
    answer is 200 with [ok] true and the message identifier whatever the
    two upserts return ([e1] and [e2] are arbitrary). *)
Theorem send_persistence_is_best_effort
  (r : Request) (now : Time) (s : Server DB) (c : WAClient)
  (req : sendRequest) (toJID : JID) (msgID : string) (e1 e2 : option error) :
  Method r = MethodPost ->
  wa s = Some c ->
  IsConnected c = true ->
  decodeSend (Body r) = (req, None) ->
  recipient req <> "" ->
  Strings.TrimSpace (sq_Message req) <> "" ->
  ParseUserOrJID (recipient req) = (toJID, None) ->
  SendText c toJID (sq_Message req) = (msgID, None) ->
  let chatName := ResolveChatName c toJID "" in
  let p := sentMessage toJID chatName msgID (sq_Message req) now in
  let chat := UpsertChat (db s) (JIDString toJID) (chatKind toJID) chatName now in
  chat.2 = e1 ->
  (UpsertMessage chat.1 p).2 = e2 ->
  Code (handleSend r now s).1.1 = StatusOK
  /\ Data (handleSend r now s).1.1
     = PSend {| sp_OK := true; sp_MessageID := msgID; sp_Error := "" |}
  /\ db (handleSend r now s).1.2 = (UpsertMessage chat.1 p).1
  /\ exists before,
       (handleSend r now s).2
       = (before
          ++ [EvUpsertChat (JIDString toJID) (chatKind toJID) chatName now;
              EvUpsertMessage p])%list
       /\ forall ev, In ev before ->
            match ev with
            | EvUpsertChat _ _ _ _ | EvUpsertMessage _ => False
            | _ => True
            end.
Proof.
  intros Hm Hwa Hconn Hdec Hto Hmsg Hjid Hsend chatName p chat _ _.
  rewrite (handleSend_delivered r now s c req toJID msgID
             Hm Hwa Hconn Hdec Hto Hmsg Hjid Hsend).
  cbn. repeat split.
  exists [EvIsConnected; EvSendText toJID (sq_Message req);
          EvLog "info" "message sent via RPC"; EvResolveChatName toJID ""].
  split; [reflexivity |].
  intros ev Hin. cbn in Hin.
  destruct Hin as [<- | [<- | [<- | [<- | []]]]]; exact I.
Qed.

(** C4: after a successful POST [/send] the store has received, and is
    left as, the upsert of the chat followed by the upsert of a message
    that is from the user (sender name [me], no sender identifier) and
    carries the identifier [SendText] returned; the chat is a group when
    the recipient is on the group server, else a broadcast when it is a
    broadcast list, else a direct chat; nothing else of the server
    changes, and the answer carries the same identifier. *)
Theorem send_records_self_sent_message
  (r : Request) (now : Time) (s : Server DB) (c : WAClient)
  (req : sendRequest) (toJID : JID) :
  Method r = MethodPost ->
  wa s = Some c ->
  IsConnected c = true ->
  decodeSend (Body r) = (req, None) ->
  recipient req <> "" ->
  Strings.TrimSpace (sq_Message req) <> "" ->
  ParseUserOrJID (recipient req) = (toJID, None) ->
  (SendText c toJID (sq_Message req)).2 = None ->
  let msgID := (SendText c toJID (sq_Message req)).1 in
  Code (handleSend r now s).1.1 = StatusOK
  /\ Data (handleSend r now s).1.1
     = PSend {| sp_OK := true; sp_MessageID := msgID; sp_Error := "" |}
  /\ exists before kind name p,
       (handleSend r now s).2
       = (before ++ [EvUpsertChat (JIDString toJID) kind name now;
                     EvUpsertMessage p])%list
       /\ db (handleSend r now s).1.2
          = (UpsertMessage
               (UpsertChat (db s) (JIDString toJID) kind name now).1 p).1
       /\ sameButDB s (handleSend r now s).1.2
       /\ name = ResolveChatName c toJID ""
       /\ um_FromMe p = true /\ um_SenderName p = "me" /\ um_SenderJID p = ""
       /\ um_MsgID p = msgID /\ um_ChatJID p = JIDString toJID
       /\ um_ChatName p = name /\ um_Timestamp p = now
       /\ um_Text p = sq_Message req
       /\ (types.Server toJID = GroupServer -> kind = "group")
       /\ (types.Server toJID <> GroupServer ->
           IsBroadcastList toJID = true -> kind = "broadcast")
       /\ (types.Server toJID <> GroupServer ->
           IsBroadcastList toJID = false -> kind = "dm").
Proof.
  intros Hm Hwa Hconn Hdec Hto Hmsg Hjid Hsend msgID.
  assert (Hsent : SendText c toJID (sq_Message req) = (msgID, None)).
  { subst msgID. destruct (SendText c toJID (sq_Message req)) as [i e].
    cbn in *. now subst e. }
  rewrite (handleSend_delivered r now s c req toJID msgID
             Hm Hwa Hconn Hdec Hto Hmsg Hjid Hsent).
  cbn. repeat split.
  eexists [_; _; _; _], _, _, _. split; [reflexivity |].
  cbn. repeat split; unfold chatKind.
  - intros ->. now rewrite String.eqb_refl.
  - intros Hne Hb. apply String.eqb_neq in Hne. now rewrite Hne, Hb.
  - intros Hne Hb. apply String.eqb_neq in Hne. now rewrite Hne, Hb.
Qed.

(** ** The message listing *)

(** The limit [handleMessages] passes to the store. *)
Lemma handleMessages_get (r : Request) (s : Server DB) :
  Method r = MethodGet ->
  Get (Query r) "chat_jid" <> "" ->
  let p := {| lm_ChatJID := Get (Query r) "chat_jid";
              lm_Limit := match Strings.Atoi (Get (Query r) "limit") with
                          | Some l => if 0 <? l then l else 50
                          | None => 50
                          end;
              lm_Before := timeBound (Get (Query r) "before");
              lm_After := timeBound (Get (Query r) "after") |} in
  handleMessages r s =
    (match (ListMessages (db s) p).2 with
     | Some err => writeError StatusInternalServerError err
     | None => writeOK (PMessages true (map messageToJSON (ListMessages (db s) p).1))
     end, s, [EvListMessages p]).
Proof.
  intros Hm Hjid p. apply String.eqb_neq in Hjid.
  unfold handleMessages. rewrite Hm. cbn. rewrite Hjid. run_m.
  fold p. destruct (ListMessages (db s) p).2; reflexivity.
Qed.

Lemma timeBound_unparsable (str : string) (e : error) :
  (parseRFC3339 str).2 = Some e -> timeBound str = None.
Proof.
  intros He. unfold timeBound. rewrite He. now destruct (String.eqb str "").
Qed.

(** C8: a GET [/messages] without [chat_jid], or with an empty one, is
    answered 400 and the store is not called.  With a [chat_jid], the
    store is called once; a [before] or [after] that does not parse is
    passed as absent, an absent or non-positive [limit] is passed as 50,
    and the answer is 200 when the store succeeds. *)
Theorem messages_validation (r : Request) (s : Server DB) :
  Method r = MethodGet ->
  (Get (Query r) "chat_jid" = "" ->
   handleMessages r s
   = (writeError StatusBadRequest "chat_jid is required", s, []))
  /\ (Get (Query r) "chat_jid" <> "" ->
      exists p,
        (handleMessages r s).2 = [EvListMessages p]
        /\ lm_ChatJID p = Get (Query r) "chat_jid"
        /\ (forall e, (parseRFC3339 (Get (Query r) "before")).2 = Some e ->
                      lm_Before p = None)
        /\ (forall e, (parseRFC3339 (Get (Query r) "after")).2 = Some e ->
                      lm_After p = None)
        /\ (Get (Query r) "before" = "" -> lm_Before p = None)
        /\ (Get (Query r) "after" = "" -> lm_After p = None)
        /\ (Get (Query r) "limit" = "" -> lm_Limit p = 50)
        /\ (forall l, Strings.Atoi (Get (Query r) "limit") = Some l -> l <= 0 ->
                      lm_Limit p = 50)
        /\ ((ListMessages (db s) p).2 = None ->
            Code (handleMessages r s).1.1 = StatusOK
            /\ okField (Data (handleMessages r s).1.1) = Some true)).
Proof.
  intros Hm. split.
  - intros Hjid. unfold handleMessages. rewrite Hm, Hjid. reflexivity.
  - intros Hjid. rewrite (handleMessages_get r s Hm Hjid). cbn.
    eexists. split; [reflexivity |]. cbn.
    repeat split.
    + intros e He. now apply timeBound_unparsable with e.
    + intros e He. now apply timeBound_unparsable with e.
    + intros ->. reflexivity.
    + intros ->. reflexivity.
    + intros ->. reflexivity.
    + intros l -> Hl. destruct (0 <? l) eqn:E; [| reflexivity].
      apply Z.ltb_lt in E. lia.
    + destruct (ListMessages _ _).2; [discriminate | reflexivity].
    + destruct (ListMessages _ _).2; [discriminate | reflexivity].
Qed.

(** ** Stopping *)

Lemma Stop_unstarted (ctx : Context) (s : Server DB) :
  server s = None -> Stop ctx s = (None, s, []).
Proof. intros Hs. unfold Stop. run_m. now rewrite Hs. Qed.

Lemma stops_unstarted (ctxs : list Context) (s : Server DB) :
  server s = None -> stops ctxs s = (map (fun _ => None) ctxs, s, []).
Proof.
  intros Hs. induction ctxs as [| ctx rest IH]; [reflexivity |].
  cbn [stops]. unfold bind at 1. rewrite (Stop_unstarted ctx s Hs). cbn.
  unfold bind at 1. rewrite IH. reflexivity.
Qed.

Lemma Stop_again (ctx1 ctx2 : Context) (s : Server DB) :
  (Stop ctx2 (Stop ctx1 s).1.2).1.2 = (Stop ctx1 s).1.2.
Proof.
  unfold Stop. run_m. destruct (server s) as [h |] eqn:E; cbn.
  - reflexivity.
  - now rewrite E.
Qed.

(** C5: on a server that was never started, any number of [Stop] calls
    with any contexts return nil, change nothing and call nothing; and on
    any server a second [Stop] leaves the state the first one reached. *)
Theorem stop_idempotent
  (opts : Options DB) (t0 : Time) (s0 : Server DB) :
  New opts t0 = inl s0 ->
  (forall ctx, Stop ctx s0 = (None, s0, []))
  /\ (forall ctxs, stops ctxs s0 = (map (fun _ => None) ctxs, s0, []))
  /\ (forall (s : Server DB) ctx1 ctx2,
        (Stop ctx2 (Stop ctx1 s).1.2).1.2 = (Stop ctx1 s).1.2).
Proof.
  intros Hnew.
  assert (Hs : server s0 = None).
  { unfold New in Hnew. destruct (o_DB opts); [| discriminate].
    now injection Hnew as <-. }
  split; [| split].
  - intros ctx. now apply Stop_unstarted.
  - intros ctxs. now apply stops_unstarted.
  - intros s ctx1 ctx2. apply Stop_again.
Qed.

(** ** Starting *)

(** C2: [Start] on a server that was never started, when the listener
    cannot be bound, returns the error but has already stored the
    [http.Server]: the state differs from the one before the call, and a
    later [Stop] logs and shuts that server down where the same [Stop]
    before the call did nothing. *)
Theorem start_bind_failure_keeps_http_server
  (a : string) (d : DB) (c : option WAClient) (running : bool) (t0 : Time)
  (err : error) (ctx : Context) :
  let s := {| addr := a; db := d; wa := c; server := None;
              syncRunning := running; startTime := t0 |} in
  let failed := Start (Some err) s in
  failed.1.1 = Some ("listen " ++ a ++ ": " ++ err)
  /\ failed.2 = [EvListen a]
  /\ server failed.1.2 <> server s
  /\ failed.1.2 <> s
  /\ Stop ctx s = (None, s, [])
  /\ (Stop ctx failed.1.2).1.1 = None
  /\ (Stop ctx failed.1.2).2 = [EvLog "info" "RPC server stopping"; EvShutdown]
  /\ (Stop ctx failed.1.2).1.2 <> failed.1.2.
Proof.
  cbn. repeat split; discriminate.
Qed.

End Facts.

(** ** Counting over the modelled store *)

#[local] Existing Instance StoreModel.memStore.

Lemma contains_empty (s : string) : StoreModel.contains "" s = true.
Proof. destruct s; reflexivity. Qed.

Lemma filter_all {A : Type} (f : A -> bool) (l : list A) :
  (forall x, f x = true) -> List.filter f l = l.
Proof.
  intros Hf. induction l as [| x l IH]; [reflexivity |].
  cbn. now rewrite Hf, IH.
Qed.

(** With an empty filter the modelled store lists every chat, up to the
    limit. *)
Lemma listChats_unfiltered (d : StoreModel.MemDB) (limit : Z) :
  StoreModel.fault d = None ->
  StoreModel.listChats d "" limit
  = (take (Z.to_nat limit) (map_to_list (StoreModel.chats d)).*2, None).
Proof.
  intros Hf. unfold StoreModel.listChats. rewrite Hf.
  rewrite filter_all; [reflexivity |].
  intros c. now rewrite contains_empty.
Qed.

Lemma listChats_count (d : StoreModel.MemDB) :
  StoreModel.fault d = None ->
  Z.of_nat (length (StoreModel.listChats d "" 100000).1)
  = Z.min (Z.of_nat (size (StoreModel.chats d))) 100000.
Proof.
  intros Hf. rewrite (listChats_unfiltered d 100000 Hf). cbn [fst].
  rewrite length_take, length_fmap, length_map_to_list. lia.
Qed.



(** * The properties on the requests of the tests *)

#[local] Existing Instance Test.lib.

Lemma send_unavailable_before_body_witness :
  Code (handleSend (Test.post "/send" "not json") 0
          (Test.mkServer StoreModel.empty (Some (Test.mockWA false)))).1.1
  = StatusServiceUnavailable.
Proof.
  apply (send_unavailable_before_body (Test.post "/send" "not json") 0
           (Test.mkServer StoreModel.empty (Some (Test.mockWA false)))).
  - reflexivity.
  - right. exists (Test.mockWA false). split; reflexivity.
Defined.

Lemma status_survives_chat_listing_error_witness :
  Code (handleStatus (Test.get "/status" []) 7
          (Test.mkServer
             {| StoreModel.chats := ∅; StoreModel.messages := ∅;
                StoreModel.fts := true;
                StoreModel.fault := Some "database is locked" |} None)).1.1
  = StatusOK.
Proof.
  apply (status_survives_chat_listing_error (Test.get "/status" []) 7
           (Test.mkServer
              {| StoreModel.chats := ∅; StoreModel.messages := ∅;
                 StoreModel.fts := true;
                 StoreModel.fault := Some "database is locked" |} None)
           "database is locked").
  - reflexivity.
  - reflexivity.
Defined.

Lemma status_reports_sync_flag_and_connection_witness :
  exists st,
    Data (handleStatus (Test.get "/status" []) 9
            (run [OpSetSyncRunning true;
                  OpSetWA (Some (Test.mockWA true));
                  OpStart None;
                  OpRequest RouteSend (Test.post "/send" Test.sendBody) 5;
                  OpSetSyncRunning false;
                  OpSetSyncRunning true]
               (Test.mkServer StoreModel.empty None))).1.1 = PStatus st
    /\ st_SyncRunning st = true
    /\ st_WAConnected st = true.
Proof.
  destruct (status_reports_sync_flag_and_connection
              {| o_Addr := "localhost:0"; o_DB := Some StoreModel.empty;
                 o_WA := None |} 0
              (Test.mkServer StoreModel.empty None)
              [OpSetSyncRunning true;
               OpSetWA (Some (Test.mockWA true));
               OpStart None;
               OpRequest RouteSend (Test.post "/send" Test.sendBody) 5;
               OpSetSyncRunning false;
               OpSetSyncRunning true]
              (Test.get "/status" []) 9 eq_refl eq_refl)
    as (st & Hdata & Hsync & Hconn & _).
  exists st. split; [exact Hdata |]. split; [exact Hsync | exact Hconn].
Defined.

Lemma send_persistence_is_best_effort_witness :
  Code (handleSend (Test.post "/send" Test.sendBody) 5
          (Test.mkServer
             {| StoreModel.chats := ∅; StoreModel.messages := ∅;
                StoreModel.fts := true;
                StoreModel.fault := Some "disk full" |}
             (Some (Test.mockWA true)))).1.1
  = StatusOK.
Proof.
  apply (send_persistence_is_best_effort
           (Test.post "/send" Test.sendBody) 5
           (Test.mkServer
              {| StoreModel.chats := ∅; StoreModel.messages := ∅;
                 StoreModel.fts := true;
                 StoreModel.fault := Some "disk full" |}
              (Some (Test.mockWA true)))
           (Test.mockWA true)
           {| sq_To := "123456789"; sq_Message := "Hello from RPC!";
              sq_ChatJID := "" |}
           {| types.User := "123456789"; types.RawAgent := 0;
              types.Device := 0; types.Integrator := 0;
              types.Server := "s.whatsapp.net" |}
           "test_msg_id" (Some "disk full") (Some "disk full"));
    try reflexivity; vm_compute; discriminate.
Defined.

Lemma send_records_self_sent_message_witness :
  Data (handleSend (Test.post "/send" Test.groupBody) 5
          (Test.mkServer StoreModel.empty (Some (Test.mockWA true)))).1.1
  = PSend {| sp_OK := true; sp_MessageID := "test_msg_id"; sp_Error := "" |}.
Proof.
  apply (send_records_self_sent_message
           (Test.post "/send" Test.groupBody) 5
           (Test.mkServer StoreModel.empty (Some (Test.mockWA true)))
           (Test.mockWA true)
           {| sq_To := ""; sq_Message := "hi all";
              sq_ChatJID := "12345-678@g.us" |}
           {| types.User := "12345-678"; types.RawAgent := 0;
              types.Device := 0; types.Integrator := 0;
              types.Server := "g.us" |});
    try reflexivity; vm_compute; discriminate.
Defined.

Lemma messages_validation_witness :
  handleMessages (Test.get "/messages" [("limit", "10")])
    (Test.mkServer StoreModel.empty None)
  = (writeError StatusBadRequest "chat_jid is required",
     Test.mkServer StoreModel.empty None, []).
Proof.
  apply (messages_validation (Test.get "/messages" [("limit", "10")])
           (Test.mkServer StoreModel.empty None)).
  - reflexivity.
  - reflexivity.
Defined.

Lemma stop_idempotent_witness :
  stops [ {| ctx_Err := None |}; {| ctx_Err := Some "context deadline exceeded" |} ]
    (Test.mkServer StoreModel.empty None)
  = ([None; None], Test.mkServer StoreModel.empty None, []).
Proof.
  apply (stop_idempotent
           {| o_Addr := "localhost:0"; o_DB := Some StoreModel.empty;
              o_WA := None |} 0 (Test.mkServer StoreModel.empty None)).
  reflexivity.
Defined.


(** * Further properties of the server *)

Ltac unfold_calls :=
  unfold isConnected, sendText, resolveChatName, upsertChat, upsertMessage,
    listChats, listMessages, searchMessages, countMessages, hasFTS, logMsg,
    bind, ret, gets, modify, emit in *.

(** Case analysis along the branches of a handler. *)
Ltac by_cases :=
  unfold_calls; cbn in *; repeat (case_match; cbn in *; simplify_eq).

(** Checks a property of each event of an explicit list. *)
Ltac events_ok :=
  repeat match goal with
         | H : (_ <? _) = true |- _ => apply Z.ltb_lt in H
         | H : (_ <=? _) = false |- _ => apply Z.leb_gt in H
         end;
  repeat (apply List.Forall_cons; [cbn; first [exact I | lia] |]);
  apply List.Forall_nil.

Section HandlerFacts.

Context {DB : Type} `{!Store DB} `{!Lib}.

(** ** Construction *)

(** X1: [New] fails exactly when no store is given, whatever the address
    and the client are; otherwise the server is unstarted, not syncing,
    bound to the given client, and listens on the given address, or on
    [localhost:5555] when that is empty. *)
Theorem New_requires_db (opts : Options DB) (now : Time) :
  (o_DB opts = None -> New opts now = inr "db is required")
  /\ (forall d, o_DB opts = Some d ->
        exists s, New opts now = inl s
                  /\ db s = d /\ wa s = o_WA opts /\ server s = None
                  /\ syncRunning s = false /\ startTime s = now
                  /\ (o_Addr opts = "" -> addr s = "localhost:5555")
                  /\ (o_Addr opts <> "" -> addr s = o_Addr opts)).
Proof.
  unfold New. split.
  - intros ->. reflexivity.
  - intros d ->. eexists. split; [reflexivity |]. cbn.
    repeat split.
    + intros ->. reflexivity.
    + intros Hne. apply String.eqb_neq in Hne. now rewrite Hne.
Qed.

(** ** Methods *)

(** X2: a request with a method the route does not serve is answered 405
    [method not allowed] before anything else is looked at: no
    collaborator is called and nothing changes.  For [/send] this holds
    with or without a client. *)
Theorem method_not_allowed (rt : Route) (r : Request) (now : Time) (s : Server DB) :
  match rt with
  | RoutePing => False
  | RouteSend => Method r <> MethodPost
  | RouteSearch => Method r <> MethodPost /\ Method r <> MethodGet
  | _ => Method r <> MethodGet
  end ->
  handler rt r now s
  = (writeError StatusMethodNotAllowed "method not allowed", s, []).
Proof.
  destruct rt; cbn [handler]; intros Hm.
  - apply String.eqb_neq in Hm. unfold handleStatus. now rewrite Hm.
  - apply String.eqb_neq in Hm. unfold handleChats. now rewrite Hm.
  - apply String.eqb_neq in Hm. unfold handleMessages. now rewrite Hm.
  - destruct Hm as [Hp Hg]. apply String.eqb_neq in Hp, Hg.
    unfold handleSearch. now rewrite Hp, Hg.
  - apply String.eqb_neq in Hm. unfold handleSend. now rewrite Hm.
  - contradiction.
Qed.

(** ** What the handlers leave alone *)

(** X3: only [/send] writes: every other handler returns the server,
    store included, exactly as it found it. *)
Theorem only_send_writes (rt : Route) (r : Request) (now : Time) (s : Server DB) :
  rt <> RouteSend -> (handler rt r now s).1.2 = s.
Proof.
  intros Hrt. destruct rt; cbn [handler]; try contradiction.
  - unfold handleStatus. by_cases; reflexivity.
  - unfold handleChats. by_cases; reflexivity.
  - unfold handleMessages. by_cases; reflexivity.
  - unfold handleSearch. by_cases; reflexivity.
  - reflexivity.
Qed.

(** X4: a send that is not answered 200 leaves the server and the store
    untouched and makes no upsert. *)
Theorem failed_send_writes_nothing (r : Request) (now : Time) (s : Server DB) :
  Code (handleSend r now s).1.1 <> StatusOK ->
  (handleSend r now s).1.2 = s
  /\ Forall (fun ev => match ev with
                       | EvUpsertChat _ _ _ _ | EvUpsertMessage _ => False
                       | _ => True
                       end) (handleSend r now s).2.
Proof.
  unfold handleSend. by_cases; intros Hne;
    try (exfalso; apply Hne; reflexivity);
    (split; [reflexivity | repeat constructor]).
Qed.

(** X5: [SendText] is called only on a bound client that reports itself
    connected, after the body has decoded, with the message exactly as
    the body has it (not trimmed, not blank) and the recipient parsed
    from the trimmed [to] or [chat_jid]. *)
Theorem send_text_is_guarded
  (r : Request) (now : Time) (s : Server DB) (to : JID) (text : string) :
  In (EvSendText to text) (handleSend r now s).2 ->
  Method r = MethodPost
  /\ (exists c, wa s = Some c /\ IsConnected c = true)
  /\ (decodeSend (Body r)).2 = None
  /\ text = sq_Message (decodeSend (Body r)).1
  /\ Strings.TrimSpace text <> ""
  /\ recipient (decodeSend (Body r)).1 <> ""
  /\ ParseUserOrJID (recipient (decodeSend (Body r)).1) = (to, None).
Proof.
  unfold handleSend.
  destruct (String.eqb (Method r) MethodPost) eqn:Hm; cbn; [| intros []].
  apply String.eqb_eq in Hm. unfold_calls. cbn.
  destruct (wa s) as [c |] eqn:Hwa; cbn; [| intros []].
  destruct (IsConnected c) eqn:Hconn; cbn; [| intros [? | []]; discriminate].
  destruct (decodeSend (Body r)) as [req derr] eqn:Hdec. cbn.
  destruct derr; cbn; [intros [? | []]; discriminate |].
  destruct (String.eqb (recipient req) "") eqn:Hto; cbn;
    [intros [? | []]; discriminate |].
  destruct (String.eqb (Strings.TrimSpace (sq_Message req)) "") eqn:Hmsg; cbn;
    [intros [? | []]; discriminate |].
  destruct (ParseUserOrJID (recipient req)) as [jid perr] eqn:Hjid. cbn.
  destruct perr; cbn; [intros [? | []]; discriminate |].
  apply String.eqb_neq in Hto, Hmsg.
  match goal with
  | |- _ -> ?G =>
      assert (Hsent : EvSendText jid (sq_Message req) = EvSendText to text -> G)
  end.
  { intros Heq. injection Heq as <- <-. repeat split; eauto. }
  destruct (SendText c jid (sq_Message req)) as [id serr]. cbn.
  destruct serr; cbn.
  - intros [? | [Hin | [? | []]]]; try discriminate. now apply Hsent.
  - intros [? | [Hin | Hrest]]; try discriminate; [now apply Hsent |].
    repeat (destruct Hrest as [? | Hrest]; try discriminate). destruct Hrest.
Qed.

(** ** The send handler: failures *)

(** X6: when the client's [SendText] fails, the answer is 500 with the
    client's error after [send failed: ], the failure is logged, no chat
    name is resolved and nothing is stored. *)
Theorem failed_send_is_500
  (r : Request) (now : Time) (s : Server DB) (c : WAClient)
  (req : sendRequest) (toJID : JID) (msgID : string) (err : error) :
  Method r = MethodPost ->
  wa s = Some c ->
  IsConnected c = true ->
  decodeSend (Body r) = (req, None) ->
  recipient req <> "" ->
  Strings.TrimSpace (sq_Message req) <> "" ->
  ParseUserOrJID (recipient req) = (toJID, None) ->
  SendText c toJID (sq_Message req) = (msgID, Some err) ->
  handleSend r now s
  = (sendError StatusInternalServerError ("send failed: " ++ err), s,
     [EvIsConnected; EvSendText toJID (sq_Message req);
      EvLog "error" "failed to send message via RPC"]).
Proof.
  intros Hm Hwa Hconn Hdec Hto Hmsg Hjid Hsend.
  apply String.eqb_neq in Hto, Hmsg.
  unfold handleSend. rewrite Hm. unfold_calls. cbn.
  rewrite Hwa. cbn. rewrite Hconn, Hdec. cbn.
  rewrite Hto, Hmsg, Hjid. cbn. rewrite Hsend. reflexivity.
Qed.

(** X7: with a connected client, a body that does not decode, a blank
    recipient, a blank message and a recipient that does not parse are
    each answered 400, checked in this order, and the client is asked
    nothing but whether it is connected. *)
Theorem bad_send_is_400
  (r : Request) (now : Time) (s : Server DB) (c : WAClient) :
  Method r = MethodPost ->
  wa s = Some c ->
  IsConnected c = true ->
  (forall e, (decodeSend (Body r)).2 = Some e ->
     handleSend r now s
     = (sendError StatusBadRequest ("invalid JSON: " ++ e), s, [EvIsConnected]))
  /\ ((decodeSend (Body r)).2 = None ->
      recipient (decodeSend (Body r)).1 = "" ->
      handleSend r now s
      = (sendError StatusBadRequest "to or chat_jid is required", s,
         [EvIsConnected]))
  /\ ((decodeSend (Body r)).2 = None ->
      recipient (decodeSend (Body r)).1 <> "" ->
      Strings.TrimSpace (sq_Message (decodeSend (Body r)).1) = "" ->
      handleSend r now s
      = (sendError StatusBadRequest "message is required", s, [EvIsConnected]))
  /\ (forall e, (decodeSend (Body r)).2 = None ->
      recipient (decodeSend (Body r)).1 <> "" ->
      Strings.TrimSpace (sq_Message (decodeSend (Body r)).1) <> "" ->
      (ParseUserOrJID (recipient (decodeSend (Body r)).1)).2 = Some e ->
      handleSend r now s
      = (sendError StatusBadRequest ("invalid recipient: " ++ e), s,
         [EvIsConnected])).
Proof.
  intros Hm Hwa Hconn.
  unfold handleSend. rewrite Hm. unfold_calls. cbn.
  rewrite Hwa. cbn. rewrite Hconn. cbn.
  repeat split.
  - intros e ->. reflexivity.
  - intros -> ->. reflexivity.
  - intros -> Hto ->. apply String.eqb_neq in Hto. now rewrite Hto.
  - intros e -> Hto Hmsg ->. apply String.eqb_neq in Hto, Hmsg.
    now rewrite Hto, Hmsg.
Qed.

Lemma TrimSpace_empty : Strings.TrimSpace "" = "".
Proof. reflexivity. Qed.

(** X8: [chat_jid] is an alias of [to]: a body that gives the recipient
    as [chat_jid] is handled exactly as the body that gives it as [to],
    and when both are given a non-blank [to] wins. *)
Theorem chat_jid_is_alias_of_to
  (r1 r2 : Request) (now : Time) (s : Server DB) (x msg other : string) :
  (Method r1 = Method r2 ->
   decodeSend (Body r1)
   = ({| sq_To := x; sq_Message := msg; sq_ChatJID := "" |}, None) ->
   decodeSend (Body r2)
   = ({| sq_To := ""; sq_Message := msg; sq_ChatJID := x |}, None) ->
   handleSend r1 now s = handleSend r2 now s)
  /\ (Strings.TrimSpace x <> "" ->
      recipient {| sq_To := x; sq_Message := msg; sq_ChatJID := other |}
      = Strings.TrimSpace x).
Proof.
  split.
  - intros Hm H1 H2.
    assert (Hrec : recipient {| sq_To := x; sq_Message := msg; sq_ChatJID := "" |}
                   = recipient {| sq_To := ""; sq_Message := msg; sq_ChatJID := x |}).
    { unfold recipient. cbn [sq_To sq_ChatJID]. rewrite TrimSpace_empty.
      cbn [String.eqb]. now destruct (String.eqb (Strings.TrimSpace x) "") eqn:E;
        [apply String.eqb_eq in E |]. }
    unfold handleSend. rewrite Hm, H1, H2. cbn [fst snd sq_Message].
    rewrite Hrec. reflexivity.
  - intros Hx. apply String.eqb_neq in Hx. unfold recipient. cbn [sq_To].
    now rewrite Hx.
Qed.

(** X9: whatever the request, each handler calls [SendText] at most
    once, and every listing it asks of the store carries a limit of at
    least one. *)
Theorem calls_are_bounded (rt : Route) (r : Request) (now : Time) (s : Server DB) :
  (length (List.filter (fun ev => match ev with
                                  | EvSendText _ _ => true
                                  | _ => false
                                  end) (handler rt r now s).2) <= 1)%nat
  /\ Forall (fun ev => match ev with
                       | EvListChats _ l => 0 < l
                       | EvListMessages p => 0 < lm_Limit p
                       | EvSearchMessages p => 0 < sm_Limit p
                       | _ => True
                       end) (handler rt r now s).2.
Proof.
  destruct rt; cbn [handler];
    [ unfold handleStatus | unfold handleChats | unfold handleMessages
    | unfold handleSearch | unfold handleSend | unfold handlePing ];
    by_cases; cbv [app List.filter length];
    (split; [first [exact I | lia] | events_ok]).
Qed.

(** ** Listings *)

Lemma map_lookup_json {A B : Type} (f : A -> B) (l : list A) (i : nat) (x : A) :
  l !! i = Some x -> map f l !! i = Some (f x).
Proof.
  intros Hx. change (map f l) with (f <$> l). now rewrite list_lookup_fmap, Hx.
Qed.

(** X10: a GET [/chats] asks the store once, with the [query] parameter
    as it is and the [limit] parameter when it is a positive integer, 50
    otherwise.  A store error is answered 500 with the store's message;
    otherwise the answer lists the store's chats one for one, in the
    store's order. *)
Theorem chats_listing (r : Request) (s : Server DB) :
  Method r = MethodGet ->
  let limit := match Strings.Atoi (Get (Query r) "limit") with
               | Some l => if 0 <? l then l else 50
               | None => 50
               end in
  let res := ListChats (db s) (Get (Query r) "query") limit in
  (handleChats r s).2 = [EvListChats (Get (Query r) "query") limit]
  /\ (forall e, res.2 = Some e ->
        (handleChats r s).1.1 = writeError StatusInternalServerError e)
  /\ (res.2 = None ->
      exists out,
        (handleChats r s).1.1 = writeOK (PChats true out)
        /\ length out = length res.1
        /\ forall i c, res.1 !! i = Some c ->
             exists j, out !! i = Some j
                       /\ cj_JID j = c_JID c /\ cj_Kind j = c_Kind c
                       /\ cj_Name j = c_Name c
                       /\ cj_LastMessageTS j = formatRFC3339 (c_LastMessageTS c)).
Proof.
  intros Hm limit res.
  assert (Hlimit : (if String.eqb (Get (Query r) "limit") "" then 50
                    else match Strings.Atoi (Get (Query r) "limit") with
                         | Some l => if 0 <? l then l else 50
                         | None => 50
                         end) = limit).
  { destruct (String.eqb (Get (Query r) "limit") "") eqn:E; [| reflexivity].
    apply String.eqb_eq in E. subst limit. now rewrite E. }
  unfold handleChats. rewrite Hm. cbn [negb String.eqb MethodGet]. cbn.
  rewrite Hlimit. unfold_calls. cbn. fold res.
  destruct res.2 as [e0 |]; cbn.
  - split; [reflexivity |]. split; [| discriminate].
    intros e [= ->]. reflexivity.
  - split; [reflexivity |]. split; [discriminate |].
    intros _. eexists. split; [reflexivity |]. split.
    + apply length_map.
    + intros i c Hc. eexists. split; [exact (map_lookup_json _ _ _ _ Hc) |].
      repeat split.
Qed.

(** X11: a GET [/messages] whose store call fails is answered 500 with
    the store's message; otherwise the answer lists the store's messages
    one for one, in the store's order, with their fields unchanged. *)
Theorem messages_listing (r : Request) (s : Server DB) :
  Method r = MethodGet ->
  Get (Query r) "chat_jid" <> "" ->
  exists p,
    (handleMessages r s).2 = [EvListMessages p]
    /\ (forall e, (ListMessages (db s) p).2 = Some e ->
          (handleMessages r s).1.1 = writeError StatusInternalServerError e)
    /\ ((ListMessages (db s) p).2 = None ->
        exists out,
          (handleMessages r s).1.1 = writeOK (PMessages true out)
          /\ length out = length (ListMessages (db s) p).1
          /\ forall i m, (ListMessages (db s) p).1 !! i = Some m ->
               exists j, out !! i = Some j
                         /\ mj_ChatJID j = m_ChatJID m /\ mj_MsgID j = m_MsgID m
                         /\ mj_SenderJID j = m_SenderJID m
                         /\ mj_FromMe j = m_FromMe m /\ mj_Text j = m_Text m
                         /\ mj_DisplayText j = m_DisplayText m).
Proof.
  intros Hm Hjid. rewrite (handleMessages_get r s Hm Hjid). cbn.
  eexists. split; [reflexivity |]. split.
  - intros e ->. reflexivity.
  - intros ->. cbn. eexists. split; [reflexivity |]. split.
    + apply length_map.
    + intros i m Hi. eexists. split; [exact (map_lookup_json _ _ _ _ Hi) |].
      repeat split.
Qed.

(** ** Search *)

(** X12: a GET [/search] reads only the query string and a POST
    [/search] only the body; the handlers of the GET-only routes and of
    [/ping] never read the body, and [/send] never reads the query
    string. *)
Theorem handlers_input_source
  (r : Request) (now : Time) (s : Server DB)
  (body : string) (query : list (string * string)) :
  let withBody := {| Method := Method r; Path := Path r; Query := Query r;
                     Body := body |} in
  let withQuery := {| Method := Method r; Path := Path r; Query := query;
                      Body := Body r |} in
  (Method r = MethodGet -> handleSearch withBody s = handleSearch r s)
  /\ (Method r = MethodPost -> handleSearch withQuery s = handleSearch r s)
  /\ handleStatus withBody now s = handleStatus r now s
  /\ handleChats withBody s = handleChats r s
  /\ handleMessages withBody s = handleMessages r s
  /\ handlePing withBody s = handlePing r s
  /\ handleSend withQuery now s = handleSend r now s.
Proof.
  cbn. repeat split.
  - intros Hm. unfold handleSearch. cbn [Method Query]. now rewrite Hm.
  - intros Hm. unfold handleSearch. cbn [Method Body]. now rewrite Hm.
Qed.

(** X13: a search whose query is blank is answered 400 without a store
    call, on GET and on POST alike, and a POST body that does not decode
    is answered 400; otherwise the store is asked once for the query as
    given (not trimmed), with the limit 50 in place of a missing,
    unreadable, zero or negative one. *)
Theorem search_validation (r : Request) (s : Server DB) :
  (Method r = MethodGet ->
   let q := Get (Query r) "query" in
   (Strings.TrimSpace q = "" ->
    handleSearch r s = (writeError StatusBadRequest "query is required", s, []))
   /\ (Strings.TrimSpace q <> "" ->
       (handleSearch r s).2
       = [EvSearchMessages
            {| sm_Query := q; sm_ChatJID := Get (Query r) "chat_jid";
               sm_Limit := match Strings.Atoi (Get (Query r) "limit") with
                           | Some l => if l <=? 0 then 50 else l
                           | None => 50
                           end |}]))
  /\ (Method r = MethodPost ->
      (forall e, (decodeSearch (Body r)).2 = Some e ->
         handleSearch r s
         = (writeError StatusBadRequest ("invalid JSON: " ++ e), s, []))
      /\ ((decodeSearch (Body r)).2 = None ->
          Strings.TrimSpace (sr_Query (decodeSearch (Body r)).1) = "" ->
          handleSearch r s
          = (writeError StatusBadRequest "query is required", s, []))
      /\ ((decodeSearch (Body r)).2 = None ->
          Strings.TrimSpace (sr_Query (decodeSearch (Body r)).1) <> "" ->
          (handleSearch r s).2
          = [EvSearchMessages
               {| sm_Query := sr_Query (decodeSearch (Body r)).1;
                  sm_ChatJID := sr_ChatJID (decodeSearch (Body r)).1;
                  sm_Limit := if sr_Limit (decodeSearch (Body r)).1 <=? 0 then 50
                              else sr_Limit (decodeSearch (Body r)).1 |}])).
Proof.
  split.
  - intros Hm q. subst q. split.
    + intros Hq. apply String.eqb_eq in Hq.
      unfold handleSearch. rewrite Hm. cbn -[Strings.TrimSpace]. now rewrite Hq.
    + intros Hq. apply String.eqb_neq in Hq.
      unfold handleSearch. rewrite Hm. cbn -[Strings.TrimSpace]. rewrite Hq. unfold_calls. cbn.
      destruct (Strings.Atoi (Get (Query r) "limit")) as [l |]; cbn;
        destruct (SearchMessages _ _).2; reflexivity.
  - intros Hm. repeat split.
    + intros e He. unfold handleSearch. rewrite Hm. cbn. now rewrite He.
    + intros He Hq. apply String.eqb_eq in Hq.
      unfold handleSearch. rewrite Hm. cbn -[Strings.TrimSpace]. now rewrite He, Hq.
    + intros He Hq. apply String.eqb_neq in Hq.
      unfold handleSearch. rewrite Hm. cbn -[Strings.TrimSpace]. rewrite He, Hq.
      unfold_calls. cbn. destruct (SearchMessages _ _).2; reflexivity.
Qed.

(** ** Handlers and the lifecycle *)

(** X14: no handler looks at whether the server was started or stopped:
    with any [http.Server] stored, or none, a request gets the same
    answer, causes the same calls and writes the same to the store. *)
Theorem handlers_ignore_lifecycle
  (rt : Route) (r : Request) (now : Time) (s : Server DB) (h : option httpServer) :
  (handler rt r now (set_server h s)).1.1 = (handler rt r now s).1.1
  /\ (handler rt r now (set_server h s)).2 = (handler rt r now s).2
  /\ (handler rt r now (set_server h s)).1.2
     = set_server h (handler rt r now s).1.2.
Proof.
  destruct rt; cbn [handler];
    [ unfold handleStatus | unfold handleChats | unfold handleMessages
    | unfold handleSearch | unfold handleSend | unfold handlePing ];
    by_cases; repeat split.
Qed.

(** X15: the six patterns [Start] registers are pairwise distinct, and a
    path is routed exactly when it is one of them, to the handler
    registered for it. *)
Theorem routes_are_distinct :
  NoDup (map fst routes)
  /\ forall path rt, lookupRoute routes path = Some rt <-> In (path, rt) routes.
Proof.
  split.
  - apply (bool_decide_unpack _). vm_compute. reflexivity.
  - intros path rt. unfold routes. cbn [lookupRoute In]. split.
    + intros Hl.
      repeat match type of Hl with
             | (if String.eqb ?p path then _ else _) = _ =>
                 destruct (String.eqb p path) eqn:E;
                 [apply String.eqb_eq in E; injection Hl as <-; subst path; tauto
                 | clear E]
             end.
      discriminate.
    + intros Hin.
      repeat (destruct Hin as [[= <- <-] | Hin]; [reflexivity |]).
      destruct Hin.
Qed.

(** The address and the start time of a server never change. *)
Lemma step_addr (s : Server DB) (o : Op) :
  addr (step s o) = addr s /\ startTime (step s o) = startTime s.
Proof.
  destruct o as [c | b | listen | ctx | rt r now | write]; cbn;
    try (split; reflexivity).
  - destruct listen; split; reflexivity.
  - unfold Stop. unfold_calls. cbn. destruct (server s); split; reflexivity.
  - destruct (frames_handler rt r now s) as (Ha & _ & _ & _ & Ht). now split.
Qed.

(** X16: over any history of a server built by [New] (owner calls,
    requests, sync writes, starts and stops), [Addr] keeps returning the
    address chosen at construction, [localhost:5555] for an empty one,
    and the start time stays the construction time. *)
Theorem addr_is_fixed
  (opts : Options DB) (t0 : Time) (s0 : Server DB) (ops : list Op) :
  New opts t0 = inl s0 ->
  (Addr (run ops s0)).1.1
  = (if String.eqb (o_Addr opts) "" then "localhost:5555" else o_Addr opts)
  /\ startTime (run ops s0) = t0.
Proof.
  intros Hnew.
  assert (Hrun : forall s, addr (run ops s) = addr s
                           /\ startTime (run ops s) = startTime s).
  { induction ops as [| o ops IH]; intros s; [split; reflexivity |].
    cbn [run fold_left]. fold (run ops (step s o)).
    destruct (IH (step s o)) as [-> ->]. apply step_addr. }
  unfold New in Hnew. destruct (o_DB opts); [| discriminate].
  injection Hnew as <-. unfold Addr, gets. cbn [fst].
  destruct (Hrun {| addr := if String.eqb (o_Addr opts) "" then "localhost:5555"
                            else o_Addr opts;
                    db := d; wa := o_WA opts; server := None;
                    syncRunning := false; startTime := t0 |}) as [-> ->].
  split; reflexivity.
Qed.

(** ** The client wrapper *)

(** X17: a wrapper around a nil client reports itself disconnected, so
    the server never calls through it: a POST [/send] is answered 503
    whatever the body, and [/status] reports no connection, whatever a
    call through the nil client would do. *)
Theorem nil_wrapper_is_never_called
  (r : Request) (now : Time) (s : Server DB)
  (nilSend : string * option error) (nilName : string) :
  let s' := set_wa (Some (waWrapper None nilSend nilName)) s in
  (Method r = MethodPost ->
   handleSend r now s'
   = (sendError StatusServiceUnavailable "WhatsApp not connected", s',
      [EvIsConnected]))
  /\ (Method r = MethodGet ->
      exists st, Data (handleStatus r now s').1.1 = PStatus st
                 /\ st_WAConnected st = false).
Proof.
  cbn. split.
  - intros Hm. unfold handleSend. rewrite Hm. reflexivity.
  - intros Hm. rewrite (handleStatus_get r now _ Hm). cbn.
    eexists. split; reflexivity.
Qed.

(** X18: a wrapper around a client is transparent: every handler answers,
    calls and stores the same as with the client bound directly. *)
Theorem wrapper_is_transparent
  (rt : Route) (r : Request) (now : Time) (s : Server DB) (c : WAClient)
  (nilSend : string * option error) (nilName : string) :
  let direct := handler rt r now (set_wa (Some c) s) in
  let wrapped :=
    handler rt r now (set_wa (Some (waWrapper (Some c) nilSend nilName)) s) in
  wrapped.1.1 = direct.1.1
  /\ wrapped.2 = direct.2
  /\ db wrapped.1.2 = db direct.1.2.
Proof.
  destruct rt; cbn [handler];
    [ unfold handleStatus | unfold handleChats | unfold handleMessages
    | unfold handleSearch | unfold handleSend | unfold handlePing ];
    by_cases; repeat split.
Qed.

End HandlerFacts.

(** * White space *)

Section DropSpace.

Variable rev : bool.

Let sp2 (a b : ascii) : bool :=
  if rev then Strings.space2 b a else Strings.space2 a b.

Let sp3 (a b c : ascii) : bool :=
  if rev then Strings.space3 c b a else Strings.space3 a b c.

(** Induction along the recursive calls of [dropSpace]. *)
Lemma dropSpace_cases (P : list ascii -> Prop) :
  P [] ->
  (forall a r1, Strings.asciiSpace a = true -> P r1 -> P (a :: r1)) ->
  (forall a, Strings.asciiSpace a = false -> P [a]) ->
  (forall a b r2, Strings.asciiSpace a = false -> sp2 a b = true ->
                  P r2 -> P (a :: b :: r2)) ->
  (forall a b, Strings.asciiSpace a = false -> sp2 a b = false -> P [a; b]) ->
  (forall a b c r3, Strings.asciiSpace a = false -> sp2 a b = false ->
                    sp3 a b c = true -> P r3 -> P (a :: b :: c :: r3)) ->
  (forall a b c r3, Strings.asciiSpace a = false -> sp2 a b = false ->
                    sp3 a b c = false -> P (a :: b :: c :: r3)) ->
  forall l, P l.
Proof.
  intros Hnil Hsp H1 Hsp2 H2 Hsp3 H3 l.
  assert (Hall : forall n l, (length l <= n)%nat -> P l).
  { clear l. induction n as [| n IH]; intros l Hlen.
    - destruct l; [exact Hnil | cbn in Hlen; lia].
    - destruct l as [| a [| b [| c r3]]]; [exact Hnil | | |];
        cbn in Hlen;
        destruct (Strings.asciiSpace a) eqn:Ea;
        try (apply Hsp; [exact Ea | apply IH; cbn; lia]).
      + now apply H1.
      + destruct (sp2 a b) eqn:Eb; [apply Hsp2 | apply H2]; auto.
      + destruct (sp2 a b) eqn:Eb; [apply Hsp2; auto; apply IH; cbn; lia |].
        destruct (sp3 a b c) eqn:Ec; [apply Hsp3; auto; apply IH; lia |].
        now apply H3. }
  apply (Hall (length l)). lia.
Qed.

Lemma dropSpace_suffix (l : list ascii) :
  exists k, l = (k ++ Strings.dropSpace rev l)%list.
Proof.
  induction l as [| a r1 Hsp IH | a Ha | a b r2 Ha Hb IH | a b Ha Hb
                 | a b c r3 Ha Hb Hc IH | a b c r3 Ha Hb Hc]
    using dropSpace_cases; cbn; unfold sp2, sp3 in *.
  - now exists [].
  - rewrite Hsp. destruct IH as [k Hk]. exists (a :: k). cbn. now rewrite <- Hk.
  - rewrite Ha. now exists [].
  - rewrite Ha, Hb. destruct IH as [k Hk]. exists (a :: b :: k). cbn.
    now rewrite <- Hk.
  - rewrite Ha, Hb. now exists [].
  - rewrite Ha, Hb, Hc. destruct IH as [k Hk]. exists (a :: b :: c :: k). cbn.
    now rewrite <- Hk.
  - rewrite Ha, Hb, Hc. now exists [].
Qed.

Lemma dropSpace_startsTrimmed (l : list ascii) :
  startsTrimmed rev (Strings.dropSpace rev l) = true.
Proof.
  induction l as [| a r1 Hsp IH | a Ha | a b r2 Ha Hb IH | a b Ha Hb
                 | a b c r3 Ha Hb Hc IH | a b c r3 Ha Hb Hc]
    using dropSpace_cases; cbn; unfold sp2, sp3 in *.
  - reflexivity.
  - now rewrite Hsp.
  - rewrite Ha. cbn. now rewrite Ha.
  - now rewrite Ha, Hb.
  - rewrite Ha, Hb. cbn. now rewrite Ha, Hb.
  - now rewrite Ha, Hb, Hc.
  - rewrite Ha, Hb, Hc. cbn. now rewrite Ha, Hb, Hc.
Qed.

Lemma startsTrimmed_fixed (l : list ascii) :
  startsTrimmed rev l = true -> Strings.dropSpace rev l = l.
Proof.
  destruct l as [| a [| b [| c r3]]]; cbn; [reflexivity | | |];
    destruct (Strings.asciiSpace a); cbn; try discriminate; try reflexivity.
  - destruct (if rev then Strings.space2 b a else Strings.space2 a b);
      cbn; [discriminate | reflexivity].
  - destruct (if rev then Strings.space2 b a else Strings.space2 a b);
      cbn; [discriminate |].
    destruct (if rev then Strings.space3 c b a else Strings.space3 a b c);
      cbn; [discriminate | reflexivity].
Qed.

Lemma startsTrimmed_prefix (l k : list ascii) :
  startsTrimmed rev (l ++ k) = true -> startsTrimmed rev l = true.
Proof.
  destruct l as [| a [| b [| c r3]]]; cbn; [reflexivity | | |].
  - destruct (Strings.asciiSpace a); cbn; [discriminate | reflexivity].
  - destruct (Strings.asciiSpace a); cbn; [discriminate |].
    destruct (if rev then Strings.space2 b a else Strings.space2 a b);
      cbn; [discriminate | reflexivity].
  - auto.
Qed.

Lemma dropSpace_again (l : list ascii) :
  Strings.dropSpace rev (Strings.dropSpace rev l) = Strings.dropSpace rev l.
Proof. apply startsTrimmed_fixed, dropSpace_startsTrimmed. Qed.

End DropSpace.

(** The bytes [TrimSpace] keeps, as a list. *)
Lemma TrimSpace_list (s : string) :
  list_ascii_of_string (Strings.TrimSpace s)
  = List.rev (Strings.dropSpace true
                (List.rev (Strings.dropSpace false (list_ascii_of_string s)))).
Proof. unfold Strings.TrimSpace. cbn zeta. apply list_ascii_of_string_of_list_ascii. Qed.

(** What [TrimSpace] returns is a segment of its argument. *)
Lemma TrimSpace_segment (s : string) :
  exists pre post,
    list_ascii_of_string s
    = (pre ++ list_ascii_of_string (Strings.TrimSpace s) ++ post)%list.
Proof.
  rewrite TrimSpace_list.
  destruct (dropSpace_suffix false (list_ascii_of_string s)) as [pre Hpre].
  destruct (dropSpace_suffix true
              (List.rev (Strings.dropSpace false (list_ascii_of_string s))))
    as [post Hpost].
  exists pre, (List.rev post).
  rewrite <- rev_app_distr, <- Hpost, rev_involutive. exact Hpre.
Qed.

(** A string trimmed at both ends is returned as it is. *)
Lemma TrimSpace_fixed (s : string) :
  startsTrimmed false (list_ascii_of_string s) = true ->
  startsTrimmed true (List.rev (list_ascii_of_string s)) = true ->
  Strings.TrimSpace s = s.
Proof.
  intros Hl Hr. unfold Strings.TrimSpace. cbn zeta.
  rewrite (startsTrimmed_fixed false _ Hl), (startsTrimmed_fixed true _ Hr).
  rewrite rev_involutive. apply string_of_list_ascii_of_string.
Qed.

Lemma TrimSpace_trimmed (s : string) :
  startsTrimmed false (list_ascii_of_string (Strings.TrimSpace s)) = true
  /\ startsTrimmed true (List.rev (list_ascii_of_string (Strings.TrimSpace s)))
     = true.
Proof.
  rewrite TrimSpace_list. split.
  - set (l := Strings.dropSpace false (list_ascii_of_string s)).
    destruct (dropSpace_suffix true (List.rev l)) as [k Hk].
    assert (Hl : l = (List.rev (Strings.dropSpace true (List.rev l)) ++ List.rev k)%list).
    { rewrite <- rev_app_distr, <- Hk. now rewrite rev_involutive. }
    apply startsTrimmed_prefix with (List.rev k). rewrite <- Hl.
    apply dropSpace_startsTrimmed.
  - rewrite rev_involutive. apply dropSpace_startsTrimmed.
Qed.

(** [strings.TrimSpace] is idempotent. *)
Lemma TrimSpace_idempotent (s : string) :
  Strings.TrimSpace (Strings.TrimSpace s) = Strings.TrimSpace s.
Proof.
  destruct (TrimSpace_trimmed s) as [Hl Hr]. now apply TrimSpace_fixed.
Qed.


(** * The command helpers *)

(** ** Strings as byte lists *)

Lemma length_list_ascii (s : string) :
  String.length s = length (list_ascii_of_string s).
Proof. induction s as [| a s IH]; cbn; [reflexivity | now rewrite IH]. Qed.

Lemma substring_list (n : nat) (s : string) :
  list_ascii_of_string (substring 0 n s) = take n (list_ascii_of_string s).
Proof.
  revert s. induction n as [| n IH]; intros [| a s]; cbn; try reflexivity.
  now rewrite IH.
Qed.

Lemma append_list (s1 s2 : string) :
  list_ascii_of_string (s1 ++ s2)
  = (list_ascii_of_string s1 ++ list_ascii_of_string s2)%list.
Proof. induction s1 as [| a s1 IH]; simpl; [reflexivity | now rewrite IH]. Qed.

Lemma string_of_list_eq (s1 s2 : string) :
  list_ascii_of_string s1 = list_ascii_of_string s2 -> s1 = s2.
Proof.
  intros Heq. rewrite <- (string_of_list_ascii_of_string s1),
    <- (string_of_list_ascii_of_string s2). now rewrite Heq.
Qed.

Lemma replaceByte_absent (old new : ascii) (s : string) :
  ~ In old (list_ascii_of_string s) -> Helpers.replaceByte old new s = s.
Proof.
  induction s as [| a s IH]; cbn; [reflexivity |]. intros Hin.
  destruct (Ascii.eqb a old) eqn:E.
  - apply Ascii.eqb_eq in E. exfalso. apply Hin. now left.
  - rewrite IH; [reflexivity |]. intros Hs. apply Hin. now right.
Qed.

Lemma replaceByte_removes (old new : ascii) (s : string) :
  old <> new -> ~ In old (list_ascii_of_string (Helpers.replaceByte old new s)).
Proof.
  intros Hne. induction s as [| a s IH]; cbn; [tauto |].
  intros [Heq | Hin]; [| now apply IH].
  destruct (Ascii.eqb a old) eqn:E.
  - now apply Hne.
  - apply Ascii.eqb_neq in E. now apply E.
Qed.

Lemma In_take {A : Type} (x : A) (n : nat) (l : list A) :
  In x (take n l) -> In x l.
Proof.
  revert l. induction n as [| n IH]; intros [| a l]; cbn; try tauto.
  intros [-> | Hin]; [now left | right; now apply IH].
Qed.

(** ** [truncate] *)

(** The text [truncate] cuts: the argument with its newlines turned into
    spaces, trimmed. *)
Lemma cleaned_no_newline (s : string) :
  ~ In "010"%char
      (list_ascii_of_string
         (Strings.TrimSpace (Helpers.replaceByte "010" " " s))).
Proof.
  intros Hin.
  destruct (TrimSpace_segment (Helpers.replaceByte "010" " " s))
    as (pre & post & Hseg).
  apply (replaceByte_removes "010" " " s); [discriminate |].
  rewrite Hseg. apply in_or_app. right. apply in_or_app. now left.
Qed.

(** X19: the text [truncate] returns never contains a newline. *)
Theorem truncate_has_no_newline (s : string) (max : Z) :
  ~ In "010"%char (list_ascii_of_string (Helpers.truncate s max)).
Proof.
  unfold Helpers.truncate. cbn zeta.
  pose proof (cleaned_no_newline s) as Hclean.
  set (t := Strings.TrimSpace (Helpers.replaceByte "010" " " s)) in *.
  destruct ((max <=? 0) || (Z.of_nat (String.length t) <=? max));
    [exact Hclean |].
  destruct (max <=? 1).
  - rewrite substring_list. intros Hin. apply Hclean. now apply In_take in Hin.
  - rewrite append_list, substring_list. intros Hin.
    apply in_app_or in Hin. destruct Hin as [Hin | Hin].
    + apply Hclean. now apply In_take in Hin.
    + cbn in Hin. repeat (destruct Hin as [Hin | Hin]; [discriminate |]).
      destruct Hin.
Qed.

(** X20: the length in bytes of what [truncate] returns.  A text that
    fits, or any text when [max] is not positive, is returned cleaned and
    whole; with [max = 1] a longer text is cut to its first byte; with
    [max >= 2] it is cut to [max - 1] bytes followed by the ellipsis, and
    is then [max + 6] bytes long. *)
Theorem truncate_length (s : string) (max : Z) :
  let t := Strings.TrimSpace (Helpers.replaceByte "010" " " s) in
  let n := Z.of_nat (String.length t) in
  (max <= 0 \/ n <= max -> Helpers.truncate s max = t)
  /\ (max = 1 -> 1 < n ->
      Helpers.truncate s max = substring 0 1 t
      /\ String.length (Helpers.truncate s max) = 1%nat)
  /\ (2 <= max -> max < n ->
      Helpers.truncate s max
      = substring 0 (Z.to_nat (max - 1)) t ++ Helpers.ellipsis
      /\ Z.of_nat (String.length (Helpers.truncate s max)) = max + 6).
Proof.
  intros t n. unfold Helpers.truncate. cbn zeta. fold t. fold n.
  assert (Hn : n = Z.of_nat (length (list_ascii_of_string t))).
  { subst n. now rewrite length_list_ascii. }
  split; [| split].
  - intros Hfit.
    destruct (max <=? 0) eqn:E0; [reflexivity |].
    destruct (n <=? max) eqn:E1; [reflexivity |].
    apply Z.leb_gt in E0, E1. lia.
  - intros -> Hlong.
    destruct (n <=? 1) eqn:E1; [apply Z.leb_le in E1; lia |]. cbn.
    split; [reflexivity |].
    rewrite length_list_ascii, substring_list, length_take. lia.
  - intros Hmax Hlong.
    destruct (max <=? 0) eqn:E0; [apply Z.leb_le in E0; lia |].
    destruct (n <=? max) eqn:E1; [apply Z.leb_le in E1; lia |].
    destruct (max <=? 1) eqn:E2; [apply Z.leb_le in E2; lia |]. cbn.
    split; [reflexivity |].
    rewrite length_list_ascii, append_list, length_app, substring_list,
      length_take. cbn. lia.
Qed.

(** The ellipsis does not begin or end with white space, whatever it is
    appended to. *)
Lemma ellipsis_ends_trimmed (p : list ascii) :
  startsTrimmed true (List.rev (p ++ list_ascii_of_string Helpers.ellipsis)) = true.
Proof. rewrite rev_app_distr. reflexivity. Qed.

Lemma space2_195 (a : ascii) : Strings.space2 a "195" = false.
Proof. unfold Strings.space2. now destruct (Strings.byte a =? 194)%N. Qed.

Lemma space3_195_162 (a : ascii) : Strings.space3 a "195" "162" = false.
Proof.
  unfold Strings.space3.
  destruct (Strings.byte a =? 225)%N, (Strings.byte a =? 226)%N,
    (Strings.byte a =? 227)%N; reflexivity.
Qed.

Lemma space3_195 (a b : ascii) : Strings.space3 a b "195" = false.
Proof.
  unfold Strings.space3.
  destruct (Strings.byte a =? 225)%N, (Strings.byte a =? 226)%N,
    (Strings.byte a =? 227)%N, (Strings.byte b =? 154)%N,
    (Strings.byte b =? 128)%N, (Strings.byte b =? 129)%N; reflexivity.
Qed.

Lemma ellipsis_starts_trimmed (p : list ascii) :
  p <> [] ->
  startsTrimmed false p = true ->
  startsTrimmed false (p ++ list_ascii_of_string Helpers.ellipsis) = true.
Proof.
  intros Hne Hp. destruct p as [| a [| b [| c p]]]; [congruence | | |].
  - cbn in *. rewrite space2_195, space3_195_162. cbn.
    now destruct (Strings.asciiSpace a).
  - cbn in *. rewrite space3_195.
    destruct (Strings.asciiSpace a), (Strings.space2 a b); cbn in *; congruence.
  - exact Hp.
Qed.

(** What [truncate] returns is trimmed at both ends. *)
Lemma truncate_trimmed (s : string) (max : Z) :
  Strings.TrimSpace (Helpers.truncate s max) = Helpers.truncate s max.
Proof.
  unfold Helpers.truncate. cbn zeta.
  set (t := Strings.TrimSpace (Helpers.replaceByte "010" " " s)).
  destruct (TrimSpace_trimmed (Helpers.replaceByte "010" " " s)) as [Hl Hr].
  fold t in Hl, Hr.
  destruct ((max <=? 0) || (Z.of_nat (String.length t) <=? max)) eqn:Efit;
    [now apply TrimSpace_fixed |].
  apply orb_false_iff in Efit. destruct Efit as [E0 E1].
  apply Z.leb_gt in E0, E1. rewrite length_list_ascii in E1.
  assert (Hsplit : forall k,
             list_ascii_of_string t
             = (take k (list_ascii_of_string t) ++ drop k (list_ascii_of_string t))%list).
  { intros k. now rewrite take_drop. }
  destruct (max <=? 1) eqn:E2.
  - apply Z.leb_le in E2. assert (max = 1) as -> by lia.
    apply TrimSpace_fixed; rewrite substring_list;
      destruct (list_ascii_of_string t) as [| a rest]; cbn in *; try lia;
      replace (take (Z.to_nat 1) (a :: rest)) with [a] by reflexivity; cbn;
      now destruct (Strings.asciiSpace a).
  - apply Z.leb_gt in E2.
    apply TrimSpace_fixed; rewrite append_list, substring_list.
    + apply ellipsis_starts_trimmed.
      * destruct (list_ascii_of_string t) as [| a rest]; cbn in *; [lia |].
        destruct (Z.to_nat (max - 1)) eqn:Ek; [lia | discriminate].
      * apply startsTrimmed_prefix
          with (drop (Z.to_nat (max - 1)) (list_ascii_of_string t)).
        now rewrite <- Hsplit.
    + apply ellipsis_ends_trimmed.
Qed.

(** X21: [truncate] is idempotent: truncating its own result to the same
    width changes nothing, cut or not. *)
Theorem truncate_idempotent (s : string) (max : Z) :
  Helpers.truncate (Helpers.truncate s max) max = Helpers.truncate s max.
Proof.
  set (r := Helpers.truncate s max).
  assert (Hclean : Strings.TrimSpace (Helpers.replaceByte "010" " " r) = r).
  { rewrite replaceByte_absent by apply truncate_has_no_newline.
    apply truncate_trimmed. }
  unfold Helpers.truncate at 1. cbn zeta. rewrite Hclean.
  destruct (truncate_length s max) as (Hfit & Hone & Hcut).
  set (t := Strings.TrimSpace (Helpers.replaceByte "010" " " s)) in *.
  set (n := Z.of_nat (String.length t)) in *.
  destruct (Z.le_gt_cases max 0) as [H0 | H0].
  { apply Z.leb_le in H0. now rewrite H0. }
  destruct (Z.le_gt_cases n max) as [Hn | Hn].
  { fold r in Hfit. rewrite Hfit by now right. fold n.
    apply Z.leb_le in Hn. rewrite Hn. now rewrite orb_true_r. }
  destruct (Z.eq_dec max 1) as [-> | Hne].
  - destruct (Hone eq_refl Hn) as [_ Hlen]. fold r in Hlen. rewrite Hlen.
    reflexivity.
  - destruct (Hcut ltac:(lia) Hn) as [Hr Hlen]. fold r in Hr, Hlen.
    rewrite Hlen.
    replace (max <=? 0) with false by (symmetry; apply Z.leb_gt; lia).
    replace (max + 6 <=? max) with false by (symmetry; apply Z.leb_gt; lia).
    replace (max <=? 1) with false by (symmetry; apply Z.leb_gt; lia).
    cbn [orb]. rewrite Hr at 2. f_equal.
    apply string_of_list_eq. rewrite Hr.
    rewrite !substring_list, append_list, substring_list.
    apply take_app_length'. rewrite length_take.
    subst n. rewrite length_list_ascii in Hn. lia.
Qed.

(** ** [parseTime] *)

Section ParseTimeFacts.

Context `{!Lib}.

Variable parseDateTime : string -> Time * option error.
Variable parseDate : string -> Time * option error.
Variable quoted : string -> string.

(** X22: [parseTime] ignores white space around its argument, and a
    blank argument is refused with [time is required] whatever the
    layouts would make of it. *)
Theorem parseTime_ignores_white_space (s : string) :
  Helpers.parseTime parseDateTime parseDate quoted (Strings.TrimSpace s)
  = Helpers.parseTime parseDateTime parseDate quoted s
  /\ (Strings.TrimSpace s = "" ->
      Helpers.parseTime parseDateTime parseDate quoted s
      = (Helpers.zeroTime, Some "time is required")).
Proof.
  unfold Helpers.parseTime. cbn zeta. rewrite TrimSpace_idempotent.
  split; [reflexivity |]. intros ->. reflexivity.
Qed.

(** X23: for an argument that is not blank, [parseTime] tries RFC 3339,
    then date and time, then date alone, on the trimmed text, and returns
    the first that parses; it fails exactly when none does, and then
    returns the zero time. *)
Theorem parseTime_first_layout_wins (s : string) :
  Strings.TrimSpace s <> "" ->
  let t := Strings.TrimSpace s in
  let out := Helpers.parseTime parseDateTime parseDate quoted s in
  ((parseRFC3339 t).2 = None -> out = ((parseRFC3339 t).1, None))
  /\ ((parseRFC3339 t).2 <> None -> (parseDateTime t).2 = None ->
      out = ((parseDateTime t).1, None))
  /\ ((parseRFC3339 t).2 <> None -> (parseDateTime t).2 <> None ->
      (parseDate t).2 = None -> out = ((parseDate t).1, None))
  /\ (out.2 <> None <->
      (parseRFC3339 t).2 <> None /\ (parseDateTime t).2 <> None
      /\ (parseDate t).2 <> None)
  /\ (out.2 <> None -> out.1 = Helpers.zeroTime).
Proof.
  intros Hne t out. subst out. unfold Helpers.parseTime. cbn zeta. fold t.
  apply String.eqb_neq in Hne. fold t in Hne. rewrite Hne.
  destruct (parseRFC3339 t).2 as [e1 |], (parseDateTime t).2 as [e2 |],
    (parseDate t).2 as [e3 |]; cbn;
    repeat split; try congruence; try tauto; try (intros; discriminate).
Qed.

End ParseTimeFacts.

(** ** [parseLevel] *)

(** X24: whatever [WACLI_LOG] holds, the level is one of trace, debug,
    info, warn and error, so that errors are never silenced; white space
    around the value is ignored, and a blank value means warn. *)
Theorem parseLevel_never_silences_errors (ToLower : string -> string) (s : string) :
  -1 <= Logging.levelValue (Logging.parseLevel ToLower s) <= 3
  /\ Logging.parseLevel ToLower (Strings.TrimSpace s) = Logging.parseLevel ToLower s
  /\ (ToLower "" = "" -> Strings.TrimSpace s = "" ->
      Logging.parseLevel ToLower s = Logging.WarnLevel).
Proof.
  unfold Logging.parseLevel. cbn zeta. rewrite TrimSpace_idempotent.
  split; [| split; [reflexivity |]].
  - repeat case_match; cbn; lia.
  - intros Hl ->. rewrite Hl. reflexivity.
Qed.

(** * The further properties on the requests of the tests *)

Lemma method_not_allowed_witness :
  handler RouteSend (Test.get "/send" []) 0 (Test.mkServer StoreModel.empty None)
  = (writeError StatusMethodNotAllowed "method not allowed",
     Test.mkServer StoreModel.empty None, []).
Proof.
  apply (method_not_allowed RouteSend (Test.get "/send" []) 0
           (Test.mkServer StoreModel.empty None)).
  discriminate.
Defined.

Lemma only_send_writes_witness :
  (handler RouteStatus (Test.get "/status" []) 3
     (Test.mkServer StoreModel.empty (Some (Test.mockWA true)))).1.2
  = Test.mkServer StoreModel.empty (Some (Test.mockWA true)).
Proof.
  apply (only_send_writes RouteStatus (Test.get "/status" []) 3
           (Test.mkServer StoreModel.empty (Some (Test.mockWA true)))).
  discriminate.
Defined.

Lemma failed_send_writes_nothing_witness :
  (handleSend (Test.post "/send" Test.blankBody) 5
     (Test.mkServer StoreModel.empty (Some (Test.mockWA true)))).1.2
  = Test.mkServer StoreModel.empty (Some (Test.mockWA true)).
Proof.
  apply (failed_send_writes_nothing (Test.post "/send" Test.blankBody) 5
           (Test.mkServer StoreModel.empty (Some (Test.mockWA true)))).
  vm_compute. discriminate.
Defined.

Lemma send_text_is_guarded_witness :
  ParseUserOrJID "123456789"
  = ({| types.User := "123456789"; types.RawAgent := 0; types.Device := 0;
        types.Integrator := 0; types.Server := "s.whatsapp.net" |}, None).
Proof.
  destruct (send_text_is_guarded (Test.post "/send" Test.sendBody) 5
              (Test.mkServer StoreModel.empty (Some (Test.mockWA true)))
              {| types.User := "123456789"; types.RawAgent := 0;
                 types.Device := 0; types.Integrator := 0;
                 types.Server := "s.whatsapp.net" |}
              "Hello from RPC!")
    as (_ & _ & _ & _ & _ & _ & Hjid).
  - vm_compute. right. left. reflexivity.
  - exact Hjid.
Defined.

Lemma failed_send_is_500_witness :
  handleSend (Test.post "/send" Test.sendBody) 5
    (Test.mkServer StoreModel.empty (Some Test.failingWA))
  = (sendError StatusInternalServerError "send failed: not logged in",
     Test.mkServer StoreModel.empty (Some Test.failingWA),
     [EvIsConnected;
      EvSendText {| types.User := "123456789"; types.RawAgent := 0;
                    types.Device := 0; types.Integrator := 0;
                    types.Server := "s.whatsapp.net" |} "Hello from RPC!";
      EvLog "error" "failed to send message via RPC"]).
Proof.
  apply (failed_send_is_500 (Test.post "/send" Test.sendBody) 5
           (Test.mkServer StoreModel.empty (Some Test.failingWA))
           Test.failingWA
           {| sq_To := "123456789"; sq_Message := "Hello from RPC!";
              sq_ChatJID := "" |}
           {| types.User := "123456789"; types.RawAgent := 0; types.Device := 0;
              types.Integrator := 0; types.Server := "s.whatsapp.net" |}
           "" "not logged in");
    try reflexivity; vm_compute; discriminate.
Defined.

Lemma bad_send_is_400_witness :
  handleSend (Test.post "/send" "not json") 5
    (Test.mkServer StoreModel.empty (Some (Test.mockWA true)))
  = (sendError StatusBadRequest "invalid JSON: invalid character",
     Test.mkServer StoreModel.empty (Some (Test.mockWA true)), [EvIsConnected]).
Proof.
  apply (proj1 (bad_send_is_400 (Test.post "/send" "not json") 5
                  (Test.mkServer StoreModel.empty (Some (Test.mockWA true)))
                  (Test.mockWA true) eq_refl eq_refl eq_refl)).
  reflexivity.
Defined.

Lemma chats_listing_witness :
  (handleChats (Test.get "/chats" [("query", "fam"); ("limit", "0")])
     (Test.mkServer StoreModel.empty None)).2
  = [EvListChats "fam" 50].
Proof.
  apply (chats_listing (Test.get "/chats" [("query", "fam"); ("limit", "0")])
           (Test.mkServer StoreModel.empty None)).
  reflexivity.
Defined.

Lemma messages_listing_witness :
  exists p,
    (handleMessages (Test.get "/messages" [("chat_jid", "123@s.whatsapp.net")])
       (Test.mkServer StoreModel.empty None)).2
    = [EvListMessages p].
Proof.
  destruct (messages_listing
              (Test.get "/messages" [("chat_jid", "123@s.whatsapp.net")])
              (Test.mkServer StoreModel.empty None))
    as (p & Hp & _).
  - reflexivity.
  - discriminate.
  - exists p. exact Hp.
Defined.

Lemma addr_is_fixed_witness :
  (Addr (run [OpStart None; OpSetSyncRunning true;
              OpStop {| ctx_Err := None |}]
           {| addr := "localhost:5555"; db := StoreModel.empty; wa := None;
              server := None; syncRunning := false; startTime := 0 |})).1.1
  = "localhost:5555".
Proof.
  apply (addr_is_fixed
           {| o_Addr := ""; o_DB := Some StoreModel.empty; o_WA := None |} 0
           {| addr := "localhost:5555"; db := StoreModel.empty; wa := None;
              server := None; syncRunning := false; startTime := 0 |}
           [OpStart None; OpSetSyncRunning true; OpStop {| ctx_Err := None |}]).
  reflexivity.
Defined.

Lemma parseTime_first_layout_wins_witness :
  Helpers.parseTime (fun _ => (0, Some "no match")) (fun _ => (0, Some "no match"))
    (fun s => s) "  2024-01-01T00:00:00Z "
  = (1704067200000000000, None).
Proof.
  destruct (parseTime_first_layout_wins
              (fun _ => (0, Some "no match")) (fun _ => (0, Some "no match"))
              (fun s => s) "  2024-01-01T00:00:00Z ")
    as (Hrfc & _).
  - vm_compute. discriminate.
  - apply Hrfc. reflexivity.
Defined.
